(** * codepy.toolchain: a shallow embedding and its verified properties

    The development follows [src/codepy/toolchain.py] class by class: one
    module per class, one definition per method, with the method's name.

    - Python strings are [string]s (sequences of 8-bit characters), lists
      are [list]s, the [features] set is a [gset string].
    - A method that can raise returns a [result]: [Return v] or [Raise e],
      with the exceptions of the module as the constructors of [exn].
    - The compiler is not part of the module.  A [Host] says what running
      an argument vector gives (exit code, standard output, standard
      error); it is a function, so the same command gives the same answer
      every time it is run.
    - [print] appends to a [Console], which the build methods thread.
    - A mutating method ([add_library]) maps the receiver to the receiver
      after the call.  Module [Heap] places toolchain objects in a store,
      where mutating the receiver and allocating a copy can be told
      apart. *)

From Stdlib Require Import ZArith String Ascii DecimalString.
From Stdlib Require DecimalPos Permutation.
From stdpp Require Import base gmap sets list strings.

Local Open Scope Z_scope.

(** ** Python string primitives used by the module *)

Module Py.

(** [s.startswith(pfx)] *)
Fixpoint startswith (s pfx : string) {struct pfx} : bool :=
  match pfx with
  | EmptyString => true
  | String a pfx' =>
      match s with
      | EmptyString => false
      | String b s' => Ascii.eqb a b && startswith s' pfx'
      end
  end.

(** [s.endswith(sfx)] *)
Definition endswith (s sfx : string) : bool :=
  startswith (String.rev s) (String.rev sfx).

(** [needle in hay] on strings. *)
Fixpoint contains (needle hay : string) : bool :=
  startswith hay needle ||
  match hay with
  | EmptyString => false
  | String _ hay' => contains needle hay'
  end.

(** Characters on which [str.split()] without argument splits (the
    ASCII part of Python's table). *)
Definition isspace (c : ascii) : bool :=
  match c with
  | "009" | "010" | "011" | "012" | "013"
  | "028" | "029" | "030" | "031" | " " => true
  | _ => false
  end%char.

Definition flush (cur : string) : list string :=
  match cur with
  | EmptyString => []
  | _ => [String.rev cur]
  end.

(** [cur] holds the pending token, reversed. *)
Fixpoint split_go (cur s : string) : list string :=
  match s with
  | EmptyString => flush cur
  | String a s' =>
      if isspace a then flush cur ++ split_go EmptyString s'
      else split_go (String a cur) s'
  end.

(** [s.split()] *)
Definition split (s : string) : list string := split_go EmptyString s.

Fixpoint split_on_go (sep : ascii) (cur s : string) : list string :=
  match s with
  | EmptyString => [String.rev cur]
  | String a s' =>
      if Ascii.eqb a sep then String.rev cur :: split_on_go sep EmptyString s'
      else split_on_go sep (String a cur) s'
  end.

(** [s.split(sep)] for a one-character separator; empty pieces are kept. *)
Definition split_on (sep : ascii) (s : string) : list string :=
  split_on_go sep EmptyString s.

(** [sep.join(l)] *)
Definition join (sep : string) (l : list string) : string :=
  String.concat sep l.

(** The text after the last occurrence of [c], as [s[s.rindex(c) + 1:]]
    computes it; [None] where [rindex] raises. *)
Fixpoint after_last (c : ascii) (s : string) : option string :=
  match s with
  | EmptyString => None
  | String a s' =>
      match after_last c s' with
      | Some r => Some r
      | None => if Ascii.eqb a c then Some s' else None
      end
  end.

(** ["%d" % z] *)
Definition fmt_d (z : Z) : string := NilZero.string_of_int (Z.to_int z).

Definition is_digit (c : ascii) : bool :=
  match c with
  | "0" | "1" | "2" | "3" | "4" | "5" | "6" | "7" | "8" | "9" => true
  | _ => false
  end%char.

Definition digit_val (c : ascii) : Z := Z.of_N (N_of_ascii c) - 48.

Fixpoint digits_go (acc : Z) (s : string) : option Z :=
  match s with
  | EmptyString => Some acc
  | String a s' =>
      if is_digit a then digits_go (10 * acc + digit_val a) s' else None
  end.

(** [int(s)] on the decimal literals a version number is made of: an
    optional sign and a non-empty run of ASCII digits.  [None] stands for
    [ValueError]. *)
Definition int (s : string) : option Z :=
  match s with
  | EmptyString => None
  | String "-" (String a r) => Z.opp <$> digits_go 0 (String a r)
  | String "+" (String a r) => digits_go 0 (String a r)
  | String "-" EmptyString | String "+" EmptyString => None
  | _ => digits_go 0 s
  end.

(** Lexicographic [>=] on tuples of integers. *)
Fixpoint tuple_ge (a b : list Z) : bool :=
  match a, b with
  | _, [] => true
  | [], _ :: _ => false
  | x :: a', y :: b' =>
      if (y <? x) then true else if (x <? y) then false else tuple_ge a' b'
  end.

Definition newline : string := String "010" EmptyString.


(** The values a keyword argument may hold where the module tests its
    truth value and formats it. *)
Inductive val : Type :=
| None_
| Int (z : Z)
| Str (s : string).

Global Instance val_eq_dec : EqDecision val.
Proof. solve_decision. Defined.



(** [s[n:]] *)
Fixpoint slice_from (n : nat) (s : string) : string :=
  match n, s with
  | O, _ => s
  | S n', String _ s' => slice_from n' s'
  | S _, EmptyString => EmptyString
  end.

(** [l.remove(x)]: the first occurrence of [x] goes.  (The module calls
    it under the guard [x in l] only.) *)
Fixpoint remove_first (x : string) (l : list string) : list string :=
  match l with
  | [] => []
  | y :: l' => if decide (x = y) then l' else y :: remove_first x l'
  end.

End Py.

(** ** Outcomes of Python code: a value, or a raised exception *)

Inductive exn : Type :=
| CompileError (msg : string)
| RuntimeError (msg : string)
| NotImplementedError
| IndexError
| ValueError
| NameError (name : string).

Inductive result (A : Type) : Type :=
| Return (a : A)
| Raise (e : exn).
Arguments Return {A} a.
Arguments Raise {A} e.

Global Instance result_ret : MRet result := fun A a => Return a.

Global Instance result_bind : MBind result := fun A B k m =>
  match m with
  | Return a => k a
  | Raise e => Raise e
  end.

(** ** The data model *)

(** The concrete class of a toolchain object. *)
Inductive backend : Type := GCC | NVCC | ISPC.

Global Instance backend_eq_dec : EqDecision backend.
Proof. solve_decision. Defined.

(** The fields a toolchain record carries.  [cpp] and [cppflags] are read
    by the ISPC class only. *)
Record Toolchain : Type := mkToolchain {
  cls : backend;
  cc : string;
  cpp : string;
  ld : string;
  cflags : list string;
  cppflags : list string;
  ldflags : list string;
  defines : list string;
  undefines : list string;
  include_dirs : list string;
  library_dirs : list string;
  libraries : list string;
  so_ext : string;
  o_ext : string;
  features : gset string
}.

(** What the module sees of its host: the outcome of running an argument
    vector (exit code, decoded standard output, decoded standard error),
    the interpreter's [sys.version], the temporary file that
    [NamedTemporaryFile] hands out, with its contents once a command has
    run, and [realpath(__file__)]. *)
Record Host : Type := mkHost {
  subprocess : list string → Z * string * string;
  sys_version : string;
  tempfile_name : string;
  tempfile_read : list string → string;
  module_realpath : string
}.

(** [pytools.prefork.call]: run and report the exit code only; the child's
    output is not captured. *)
Definition call (h : Host) (argv : list string) : Z := (subprocess h argv).1.1.

(** Module-level [call_capture_output] (source line 652). *)
Definition call_capture_output (h : Host) (argv : list string)
  : Z * string * string := subprocess h argv.

(** What [print] has written so far, one entry per call. *)
Record Console : Type := mkConsole {
  sys_stdout : list string;
  sys_stderr : list string
}.

Definition print (s : string) (c : Console) : Console :=
  {| sys_stdout := sys_stdout c ++ [s]; sys_stderr := sys_stderr c |}.

Definition print_stderr (s : string) (c : Console) : Console :=
  {| sys_stdout := sys_stdout c; sys_stderr := sys_stderr c ++ [s] |}.

Definition console0 : Console := {| sys_stdout := []; sys_stderr := [] |}.

(** Modelled from the spec: [Record.copy] of pytools, which is not part of
    the sources; the record base "provides ... a copy(**overrides)
    operation returning a new instance with named fields replaced".  Only
    the override [cflags=...] is ever requested. *)
Definition copy_cflags (t : Toolchain) (new_cflags : list string) : Toolchain :=
  {| cls := cls t; cc := cc t; cpp := cpp t; ld := ld t;
     cflags := new_cflags; cppflags := cppflags t; ldflags := ldflags t;
     defines := defines t; undefines := undefines t;
     include_dirs := include_dirs t; library_dirs := library_dirs t;
     libraries := libraries t; so_ext := so_ext t; o_ext := o_ext t;
     features := features t |}.

(** ["-D%s" % define for define in defines] and its siblings. *)
Definition flag (pfx : string) (l : list string) : list string :=
  (λ x, pfx +:+ x) <$> l.

(** ** class Toolchain *)

Module Toolchain.

(** [for d in given: if d not in dirs: dirs.append(d)] *)
Definition append_missing (dirs given : list string) : list string :=
  fold_left (λ acc d, if decide (d ∈ acc) then acc else acc ++ [d])
            given dirs.

(** The receiver after [self.add_library(feature, include_dirs,
    library_dirs, libraries)]. *)
Definition add_library (self : Toolchain) (feature : string)
    (idirs ldirs libs : list string) : Toolchain :=
  if decide (feature ∈ features self) then self
  else
    {| cls := cls self; cc := cc self; cpp := cpp self; ld := ld self;
       cflags := cflags self; cppflags := cppflags self;
       ldflags := ldflags self;
       defines := defines self; undefines := undefines self;
       include_dirs := append_missing (include_dirs self) idirs;
       library_dirs := append_missing (library_dirs self) ldirs;
       libraries := libs ++ libraries self;
       so_ext := so_ext self; o_ext := o_ext self;
       features := {[feature]} ∪ features self |}.

(** An element of the list [abi_id] returns: a string or a command line. *)
Inductive abi_item : Type :=
| AbiStr (s : string)
| AbiList (l : list string).

(** [Toolchain.abi_id], given the class's [get_version]. *)
Definition abi_id (h : Host) (get_version : result string)
  : result (list abi_item) :=
  v ← get_version; mret [AbiStr v; AbiStr (sys_version h)].

(** The methods the base class leaves to its subclasses. *)
Definition with_optimization_level : result Toolchain :=
  Raise NotImplementedError.

End Toolchain.

(** The level argument of [with_optimization_level]: the token ["debug"] or
    an integer. *)
Inductive level : Type :=
| Debug
| Level (n : Z).

(** ** class GCCLikeToolchain *)

(** Modelled from the spec: [codepy.tools.join_continued_lines], which is
    not part of the sources; "backslash line continuations folded into
    single logical lines".  [pending] is the text of a logical line whose
    last physical line ended in a backslash. *)
Fixpoint join_continued_lines_go (pending : option string)
    (lines : list string) : list string :=
  match lines with
  | [] => option_list pending
  | l :: rest =>
      let cur := from_option id EmptyString pending +:+ l in
      match String.rev cur with
      | String "\" r => join_continued_lines_go (Some (String.rev r)) rest
      | _ => cur :: join_continued_lines_go None rest
      end
  end.

Definition join_continued_lines (lines : list string) : list string :=
  join_continued_lines_go None lines.

Module GCCLikeToolchain.
Section methods.
Variable h : Host.
(** [self._cmdline], which the concrete classes define. *)
Variable _cmdline : Toolchain → list string → bool → result (list string).

Definition get_version (self : Toolchain) : result string :=
let '(result, stdout, stderr) := call_capture_output h [cc self; "--version"] in
if decide (result ≠ 0) then Raise (RuntimeError ("version query failed: " +:+ stderr))
else Return stdout.

(** The receiver after [self.enable_debugging()]. *)
Definition enable_debugging (self : Toolchain) : Toolchain :=
  {| cls := cls self; cc := cc self; cpp := cpp self; ld := ld self;
     cflags :=
       List.filter (λ f, negb (Py.startswith f "-O")) (cflags self) ++ ["-g"];
     cppflags := cppflags self; ldflags := ldflags self;
     defines := defines self; undefines := undefines self;
     include_dirs := include_dirs self; library_dirs := library_dirs self;
     libraries := libraries self; so_ext := so_ext self; o_ext := o_ext self;
     features := features self |}.

(** [set(flatten(line.split()[2:] for line in lines))], before [set]. *)
Definition dependency_tokens (lines : list string) : list string :=
mjoin ((λ line, drop 2 (Py.split line)) <$> lines).

(** The argument vector of the dependency scan. *)
Definition dependency_argv (self : Toolchain) (source_files : list string)
: list string :=
[cc self] ++ ["-M"]
++ flag "-D" (defines self)
++ flag "-U" (undefines self)
++ flag "-I" (include_dirs self)
++ cflags self
++ source_files.

Definition get_dependencies (self : Toolchain) (source_files : list string)
: result (gset string) :=
let '(result, stdout, stderr) :=
  call_capture_output h (dependency_argv self source_files) in
if decide (result ≠ 0)
then Raise (CompileError ("getting dependencies failed: " +:+ stderr))
else
  let lines := join_continued_lines (Py.split_on "010" stdout) in
  Return (list_to_set (dependency_tokens lines)).

(** The part [build_object], [build_extension] and [link_extension]
  share: echo when [debug], run, report a failure. *)
Definition run_cc (cc_cmdline : list string) (debug : bool) (con : Console)
: Console * result unit :=
let con := if debug then print (Py.join " " cc_cmdline) con else con in
let result := call h cc_cmdline in
if decide (result ≠ 0)
then (print_stderr ("FAILED compiler invocation:" +:+ Py.join " " cc_cmdline) con,
      Raise (CompileError "module compilation failed"))
else (con, Return ()).

Definition build_object (self : Toolchain) (ext_file : string)
  (source_files : list string) (debug : bool) (con : Console)
: Console * result unit :=
match _cmdline self source_files true with
| Raise e => (con, Raise e)
| Return cmd => run_cc (cmd ++ ["-o"; ext_file]) debug con
end.

Definition build_extension (self : Toolchain) (ext_file : string)
  (source_files : list string) (debug : bool) (con : Console)
: Console * result unit :=
match _cmdline self source_files false with
| Raise e => (con, Raise e)
| Return cmd => run_cc (cmd ++ ["-o"; ext_file]) debug con
end.

Definition link_extension (self : Toolchain) (ext_file : string)
  (object_files : list string) (debug : bool) (con : Console)
: Console * result unit :=
match _cmdline self object_files false with
| Raise e => (con, Raise e)
| Return cmd => run_cc (cmd ++ ["-o"; ext_file]) debug con
end.

End methods.
End GCCLikeToolchain.

(** ** class GCCToolchain *)

Module GCCToolchain.

Definition _cmdline (self : Toolchain) (files : list string) (object : bool)
  : result (list string) :=
  let ld_options := if object then ["-c"] else ldflags self in
  let link :=
    if object then []
    else flag "-L" (library_dirs self) ++ flag "-l" (libraries self) in
  Return ([cc self]
          ++ cflags self
          ++ ld_options
          ++ flag "-D" (defines self)
          ++ flag "-U" (undefines self)
          ++ flag "-I" (include_dirs self)
          ++ files
          ++ link).

Definition get_version (h : Host) := GCCLikeToolchain.get_version h.
Definition get_dependencies (h : Host) := GCCLikeToolchain.get_dependencies h.
Definition build_object (h : Host) := GCCLikeToolchain.build_object h _cmdline.
Definition build_extension (h : Host) := GCCLikeToolchain.build_extension h _cmdline.
Definition link_extension (h : Host) := GCCLikeToolchain.link_extension h _cmdline.

(** The loop of [get_version_tuple]: integers up to the first component
    [int] rejects. *)
Fixpoint leading_ints (numbers : list string) : list Z :=
  match numbers with
  | [] => []
  | n :: rest =>
      match Py.int n with
      | Some z => z :: leading_ints rest
      | None => []
      end
  end.

Definition get_version_tuple (h : Host) (self : Toolchain) : result (list Z) :=
  ver ← get_version h self;
  let lines := Py.split_on "010" ver in
  match lines !! 0%nat with
  | None => Raise IndexError
  | Some line0 =>
      match Py.split line0 !! 2%nat with
      | None => Raise IndexError
      | Some word2 => Return (leading_ints (Py.split_on "." word2))
      end
  end.

Definition abi_id (h : Host) (self : Toolchain)
  : result (list Toolchain.abi_item) :=
  base ← Toolchain.abi_id h (get_version h self);
  cmd ← _cmdline self [] false;
  mret (base ++ [Toolchain.AbiList cmd]).

Definition remove_prefix (l : list string) (pfx : string) : list string :=
  List.filter (λ f, negb (Py.startswith f pfx)) l.

Definition stripped_prefixes : list string :=
  ["-O"; "-g"; "-march"; "-mtune"; "-DNDEBUG"].

(** [oflags], the flags the chosen level contributes. *)
Definition oflags (h : Host) (self : Toolchain) (lvl : level)
  : result (list string) :=
  match lvl with
  | Debug => Return ["-g"]
  | Level n =>
      let oflags := ["-O" +:+ Py.fmt_d n; "-DNDEBUG"] in
      if (2 <=? n)
      then
        vt ← get_version_tuple h self;
        if Py.tuple_ge vt [4; 3]
        then Return (oflags ++ ["-march=native"; "-mtune=native"])
        else Return oflags
      else Return oflags
  end.

(** The keyword arguments [debug] and [**extra] are accepted and never
    read. *)
Definition with_optimization_level (h : Host) (self : Toolchain) (lvl : level)
  : result Toolchain :=
  let cflags := fold_left remove_prefix stripped_prefixes (cflags self) in
  oflags ← oflags h self lvl;
  mret (copy_cflags self (cflags ++ oflags)).

End GCCToolchain.

(** ** class NVCCToolchain *)

Module NVCCToolchain.

Definition _cmdline (self : Toolchain) (files : list string) (object : bool)
  : result (list string) :=
  let ldflags := if object then ["-c"] else ldflags self in
  let load :=
    if object then []
    else flag "-L" (library_dirs self) ++ flag "-l" (libraries self) in
  Return ([cc self]
          ++ cflags self
          ++ ldflags
          ++ flag "-D" (defines self)
          ++ flag "-U" (undefines self)
          ++ flag "-I" (include_dirs self)
          ++ files
          ++ load).

Definition get_version (h : Host) := GCCLikeToolchain.get_version h.
Definition get_dependencies (h : Host) := GCCLikeToolchain.get_dependencies h.
Definition build_extension (h : Host) := GCCLikeToolchain.build_extension h _cmdline.
Definition link_extension (h : Host) := GCCLikeToolchain.link_extension h _cmdline.

(** Line 4 of the version text, its words 5 and 6, both split at dots. *)
Definition get_version_tuple (h : Host) (self : Toolchain) : result (list Z) :=
  ver ← get_version h self;
  let lines := Py.split_on "010" ver in
  match lines !! 3%nat with
  | None => Raise IndexError
  | Some line3 =>
      let words := Py.split line3 in
      match words !! 4%nat with
      | None => Raise IndexError
      | Some word4 =>
          match words !! 5%nat with
          | None => Raise IndexError
          | Some word5 =>
              Return (GCCToolchain.leading_ints
                        (Py.split_on "." word4 ++ Py.split_on "." word5))
          end
      end
  end.

Definition abi_id (h : Host) (self : Toolchain)
  : result (list Toolchain.abi_item) :=
  base ← Toolchain.abi_id h (get_version h self);
  cmd ← _cmdline self [] false;
  mret (base ++ [Toolchain.AbiList cmd]).

(** The class's own [build_object]: output is captured and echoed, and
    the word "error" on standard error counts as a failure. *)
Definition build_object (h : Host) (self : Toolchain) (ext_file : string)
    (source_files : list string) (debug : bool) (con : Console)
  : Console * result unit :=
  match _cmdline self source_files true with
  | Raise e => (con, Raise e)
  | Return cmd =>
      let cc_cmdline := cmd ++ ["-o"; ext_file] in
      let con := if debug then print (Py.join " " cc_cmdline) con else con in
      let '(result, stdout, stderr) := call_capture_output h cc_cmdline in
      let con := print stdout (print stderr con) in
      let result := if Py.contains "error" stderr then 1 else result in
      if decide (result ≠ 0)
      then (print_stderr ("FAILED compiler invocation:" +:+ Py.join " " cc_cmdline) con,
            Raise (CompileError "module compilation failed"))
      else (con, Return ())
  end.

(** Not overridden: the base class's stub. *)
Definition with_optimization_level (h : Host) (self : Toolchain) (lvl : level)
  : result Toolchain := Toolchain.with_optimization_level.

End NVCCToolchain.

(** ** class ISPCToolchain *)

Module ISPCToolchain.

(** The keyword arguments of the constructor.  Those it pops are
    optional; the others are handed on to the record as they are. *)
Record kwargs : Type := mkKwargs {
  kw_cc : option string;
  kw_cpp : option string;
  kw_ld : option string;
  kw_use_openmp : option bool;
  kw_defines : option (list string);
  kw_libraries : option (list string);
  kw_target : option Py.val;
  kw_vector_width : option Py.val;
  kw_addressing_width : option Py.val;
  kw_cppflags : option (list string);
  kw_cflags : option (list string);
  kw_ldflags : list string;
  kw_undefines : list string;
  kw_include_dirs : list string;
  kw_library_dirs : list string;
  kw_so_ext : string;
  kw_o_ext : string;
  kw_features : option (gset string)
}.




Definition get_cc (self : Toolchain) (files : list string) (obj : bool)
  : string :=
  if (obj && forallb (λ f, Py.endswith f ".ispc") files)
     || bool_decide (files = [])
  then cc self
  else if forallb (λ f, Py.endswith f ".cpp") files then cpp self
  else ld self.

(** The local helper [__get_ext]: [f[f.rindex('.') + 1:]]. *)
Definition __get_ext (f : string) : result string :=
  match Py.after_last "." f with
  | Some e => Return e
  | None => Raise ValueError
  end.

(** The check guarded by the comment "check we don't have mixed
    extensions".  The names in the message come out of a [set]; they
    are listed here in order of first occurrence. *)
Definition check_extensions (file : list string) : result () :=
  match file with
  | [] => Raise IndexError
  | f0 :: _ =>
      ext ← __get_ext f0;
      if forallb (λ f, Py.endswith f ext) file then Return ()
      else
        ftypes ← mapM __get_ext file;
        Raise (CompileError ("Can't compile mixed filetypes: "
                             +:+ Py.join ", " (remove_dups ftypes)))
  end.

Definition link_flag (lib : string) : string :=
  if decide (lib = "-fopenmp") then "-fopenmp" else "-l" +:+ lib.

Definition _cmdline (self : Toolchain) (file : list string) (obj : bool)
  : result (list string) :=
  let cc_ := get_cc self file obj in
  flags ←
    (if decide (cc_ ≠ cc self)
     then
       _ ← check_extensions file;
       mret (cppflags self ++ (if obj then ["-c"] else []))
     else Return (cflags self));
  let ld_options := if obj then [] else ldflags self in
  let link :=
    if obj then []
    else flag "-L" (library_dirs self) ++ (link_flag <$> libraries self) in
  mret ([cc_]
        ++ flags
        ++ ld_options
        ++ flag "-D" (defines self)
        ++ flag "-U" (undefines self)
        ++ flag "-I" (include_dirs self)
        ++ file
        ++ link).

Definition get_version (h : Host) := GCCLikeToolchain.get_version h.
Definition build_object (h : Host) := GCCLikeToolchain.build_object h _cmdline.
Definition link_extension (h : Host) := GCCLikeToolchain.link_extension h _cmdline.

(** The fifth word of the whole version text, split at dots. *)
Definition get_version_tuple (h : Host) (self : Toolchain) : result (list Z) :=
  ver ← get_version h self;
  match Py.split ver !! 4%nat with
  | None => Raise IndexError
  | Some word4 => Return (GCCToolchain.leading_ints (Py.split_on "." word4))
  end.

Definition get_dependencies (h : Host) (self : Toolchain)
    (source_files : list string) : result (gset string) :=
  let building_obj := negb (forallb (λ s, Py.endswith s ".o") source_files) in
  let cc_ := get_cc self source_files building_obj in
  let cflags := if decide (cc_ = cc self) then cflags self else cppflags self in
  let depends :=
    if decide (cc_ = "ispc") then ["-MMM"; tempfile_name h] else ["-M"] in
  let argv :=
    [cc_] ++ depends
    ++ flag "-D" (defines self)
    ++ flag "-U" (undefines self)
    ++ flag "-I" (include_dirs self)
    ++ cflags
    ++ source_files in
  let '(result, stdout, stderr) := call_capture_output h argv in
  if decide (result ≠ 0)
  then Raise (CompileError ("getting dependencies failed: " +:+ stderr))
  else
    let lines :=
      join_continued_lines (Py.split_on "010" (tempfile_read h argv)) in
    Return (list_to_set (GCCLikeToolchain.dependency_tokens lines)).

Definition abi_id (h : Host) (self : Toolchain)
  : result (list Toolchain.abi_item) :=
  base ← Toolchain.abi_id h (get_version h self);
  cmd ← _cmdline self [] false;
  mret (base ++ [Toolchain.AbiList cmd]).

Definition stripped_prefixes : list string := ["-O"; "-g"; "-DNDEBUG"].

Definition oflags (lvl : level) : list string :=
  match lvl with
  | Debug => ["-g"]
  | Level n => ["-O" +:+ Py.fmt_d n; "-DNDEBUG"]
  end.

Definition with_optimization_level (h : Host) (self : Toolchain) (lvl : level)
  : result Toolchain :=
  let cflags :=
    fold_left GCCToolchain.remove_prefix stripped_prefixes (cflags self) in
  mret (copy_cflags self (cflags ++ oflags lvl)).

(** [join(realpath(__file__), 'include', 'codepy' 'tasksys.cpp')]: the
    two adjacent literals are one string. *)
Definition tasksys_path (h : Host) : string :=
  module_realpath h +:+ "/" +:+ "include" +:+ "/" +:+ ("codepy" +:+ "tasksys.cpp").

(** The generator under [any] evaluates [file.endswith(...)] once per
    element of [source_files], and [file] is not the loop variable [f]:
    with any element at all the lookup of [file] fails.  (Python 3 raises
    [NameError]; Python 2 finds the builtin type [file] and raises
    [AttributeError] at the same place.) *)
Definition any_tasksys (source_files : list string) : result bool :=
  match source_files with
  | [] => Return false
  | _ :: _ => Raise (NameError "file")
  end.

Definition build_extension (h : Host) (self : Toolchain) (ext_file : string)
    (source_files : list string) (debug : bool) (con : Console)
  : Console * result unit :=
  match any_tasksys source_files with
  | Raise e => (con, Raise e)
  | Return found =>
      let '(con, source_files) :=
        if negb found
        then
          (if debug then print "Adding system tasksys.cpp to source files" con
           else con,
           source_files ++ [tasksys_path h])
        else (con, source_files) in
      GCCLikeToolchain.build_extension h _cmdline self ext_file source_files
        false con
  end.

End ISPCToolchain.

(** ** Method resolution

    A call [self.m(...)] runs the definition of [m] in the class of
    [self]. *)

Definition _cmdline (self : Toolchain) : list string → bool → result (list string) :=
  match cls self with
  | GCC => GCCToolchain._cmdline self
  | NVCC => NVCCToolchain._cmdline self
  | ISPC => ISPCToolchain._cmdline self
  end.

Definition abi_id (h : Host) (self : Toolchain) : result (list Toolchain.abi_item) :=
  match cls self with
  | GCC => GCCToolchain.abi_id h self
  | NVCC => NVCCToolchain.abi_id h self
  | ISPC => ISPCToolchain.abi_id h self
  end.

Definition get_dependencies (h : Host) (self : Toolchain)
  : list string → result (gset string) :=
  match cls self with
  | GCC => GCCToolchain.get_dependencies h self
  | NVCC => NVCCToolchain.get_dependencies h self
  | ISPC => ISPCToolchain.get_dependencies h self
  end.

Definition with_optimization_level (h : Host) (self : Toolchain)
  : level → result Toolchain :=
  match cls self with
  | GCC => GCCToolchain.with_optimization_level h self
  | NVCC => NVCCToolchain.with_optimization_level h self
  | ISPC => ISPCToolchain.with_optimization_level h self
  end.

Definition build_object (h : Host) (self : Toolchain)
  : string → list string → bool → Console → Console * result unit :=
  match cls self with
  | GCC => GCCToolchain.build_object h self
  | NVCC => NVCCToolchain.build_object h self
  | ISPC => ISPCToolchain.build_object h self
  end.

Definition build_extension (h : Host) (self : Toolchain)
  : string → list string → bool → Console → Console * result unit :=
  match cls self with
  | GCC => GCCToolchain.build_extension h self
  | NVCC => NVCCToolchain.build_extension h self
  | ISPC => ISPCToolchain.build_extension h self
  end.

Definition link_extension (h : Host) (self : Toolchain)
  : string → list string → bool → Console → Console * result unit :=
  match cls self with
  | GCC => GCCToolchain.link_extension h self
  | NVCC => NVCCToolchain.link_extension h self
  | ISPC => ISPCToolchain.link_extension h self
  end.

(** ** Toolchain objects in the interpreter's store

    Objects live at locations; a method that mutates its receiver writes
    to the receiver's location, a method that returns a copy allocates.
    The list and set fields are held by value. *)

Module Heap.

Abbreviation loc := positive.
Abbreviation heap := (gmap positive Toolchain).

(** [self.add_library(...)]: the receiver is updated in place. *)
Definition add_library (σ : heap) (self : loc) (feature : string)
    (idirs ldirs libs : list string) : heap :=
  match σ !! self with
  | Some t => <[self := Toolchain.add_library t feature idirs ldirs libs]> σ
  | None => σ
  end.

(** [self.with_optimization_level(level)]: nothing is written but the
    object [copy] creates, whose location is returned.  (A receiver is
    always a live object; the last branch is there for totality.) *)
Definition with_optimization_level (h : Host) (σ : heap) (self : loc)
    (lvl : level) : heap * result loc :=
  match σ !! self with
  | Some t =>
      match with_optimization_level h t lvl with
      | Return t' => let r := fresh (dom σ) in (<[r := t']> σ, Return r)
      | Raise e => (σ, Raise e)
      end
  | None => (σ, Raise (NameError "self"))
  end.

End Heap.

(** ** Configuration: guessing a toolchain from the interpreter's build

    [make_vars] is what [parse_makefile(get_makefile_filename())] of
    distutils returns, taken with string values; [sys_maxint] is
    [sys.maxint] where the interpreter has it. *)

Module Configuration.

(** What the guessing functions can raise. *)
Inductive guess_exn : Type :=
| KeyError (key : string)
| AttributeError (name : string)
| ToolchainGuessError (msg : string)
| Builtin (e : exn).

Inductive guess (A : Type) : Type :=
| Guessed (a : A)
| GuessRaise (e : guess_exn).
Arguments Guessed {A} a.
Arguments GuessRaise {A} e.

Global Instance guess_ret : MRet guess := fun A a => Guessed a.

Global Instance guess_bind : MBind guess := fun A B k m =>
  match m with
  | Guessed a => k a
  | GuessRaise e => GuessRaise e
  end.

(** [make_vars[key]] *)
Definition getitem (make_vars : gmap string string) (key : string)
  : guess string :=
  match make_vars !! key with
  | Some v => Guessed v
  | None => GuessRaise (KeyError key)
  end.

(** [l[i]] *)
Definition index (l : list string) (i : nat) : guess string :=
  match l !! i with
  | Some v => Guessed v
  | None => GuessRaise (Builtin IndexError)
  end.

(** The keyword arguments the guessing functions build. *)
Record kwargs : Type := mkKwargs {
  kw_cc : string;
  kw_ld : option string;
  kw_cflags : list string;
  kw_ldflags : list string;
  kw_libraries : list string;
  kw_include_dirs : list string;
  kw_library_dirs : list string;
  kw_so_ext : string;
  kw_o_ext : string;
  kw_defines : list string;
  kw_undefines : list string
}.

Definition strip_prefix (pfx value : string) : string :=
  if Py.startswith value pfx then Py.slice_from (String.length pfx) value
  else value.

(** One round of the loop over [cc_cmdline[1:]]; the state is
    [(cflags, defines, undefines)]. *)
Definition sort_cflag (st : list string * list string * list string)
    (cflag : string) : list string * list string * list string :=
  let '(cflags, defines, undefines) := st in
  if Py.startswith cflag "-D"
  then (cflags, defines ++ [Py.slice_from 2 cflag], undefines)
  else if Py.startswith cflag "-U"
  then (cflags, defines, undefines ++ [Py.slice_from 2 cflag])
  else (cflags ++ [cflag], defines, undefines).

(** One round of the loop over [LIBS]; the state is
    [(libraries, cflags)]. *)
Definition sort_lib (st : list string * list string) (lib : string)
  : list string * list string :=
  let '(libraries, cflags) := st in
  if Py.startswith lib "-l"
  then (libraries ++ [strip_prefix "-l" lib], cflags)
  else (libraries, cflags ++ [lib]).

Definition _guess_toolchain_kwargs_from_python_config
    (make_vars : gmap string string) : guess kwargs :=
  cxx ← getitem make_vars "CXX";
  cflags_var ← getitem make_vars "CFLAGS";
  cflagsforshared ← getitem make_vars "CFLAGSFORSHARED";
  let cc_cmdline :=
    Py.split cxx ++ Py.split cflags_var ++ Py.split cflagsforshared in
  modobjs ← getitem make_vars "MODOBJS";
  modobj0 ← index (Py.split modobjs) 0;
  suffix ← index (Py.split_on "." modobj0) 1;
  let object_suffix := "." +:+ suffix in
  let '(cflags, defines, undefines) :=
    fold_left sort_cflag (drop 1 cc_cmdline) ([], [], []) in
  libs ← getitem make_vars "LIBS";
  let '(libraries, cflags) :=
    fold_left sort_lib (Py.split libs) ([], cflags) in
  cc0 ← index cc_cmdline 0;
  ldshared ← getitem make_vars "LDSHARED";
  ld0 ← index (Py.split ldshared) 0;
  linkforshared ← getitem make_vars "LINKFORSHARED";
  includepy ← getitem make_vars "INCLUDEPY";
  libdir ← getitem make_vars "LIBDIR";
  mret {| kw_cc := cc0;
          kw_ld := Some ld0;
          kw_cflags := cflags;
          kw_ldflags := drop 1 (Py.split ldshared) ++ Py.split linkforshared;
          kw_libraries := libraries;
          kw_include_dirs := [includepy];
          kw_library_dirs := [libdir];
          kw_so_ext := default ".so" (make_vars !! "SO");
          kw_o_ext := object_suffix;
          kw_defines := defines;
          kw_undefines := undefines |}.

(** The calls of [GCCToolchain] and [NVCCToolchain] with the keyword
    arguments unpacked: the record receives them as fields, with an empty
    [features] set.
    The fields the keyword arguments do not name ([cpp], [cppflags], and
    [ld] for CUDA) do not exist on the object; they are left empty here,
    and no method of the two classes reads them. *)
Definition construct (k : backend) (kw : kwargs) : Toolchain :=
  {| cls := k; cc := kw_cc kw; cpp := EmptyString;
     ld := default EmptyString (kw_ld kw);
     cflags := kw_cflags kw; cppflags := []; ldflags := kw_ldflags kw;
     defines := kw_defines kw; undefines := kw_undefines kw;
     include_dirs := kw_include_dirs kw; library_dirs := kw_library_dirs kw;
     libraries := kw_libraries kw;
     so_ext := kw_so_ext kw; o_ext := kw_o_ext kw; features := ∅ |}.

(** The flag corrections both compiler families get. *)
Definition corrected_cflags (sys_maxint : option Z) (version : string)
    (cflags : list string) : guess (list string) :=
  let cflags :=
    if decide ("-Wstrict-prototypes" ∈ cflags)
    then Py.remove_first "-Wstrict-prototypes" cflags else cflags in
  if Py.contains "darwin" version
  then
    match sys_maxint with
    | None => GuessRaise (AttributeError "maxint")
    | Some m =>
        if decide (m = 2147483647) then Guessed (cflags ++ ["-arch"; "i386"])
        else Guessed cflags
    end
  else Guessed cflags.

Definition with_cflags (kw : kwargs) (cflags : list string) : kwargs :=
  {| kw_cc := kw_cc kw; kw_ld := kw_ld kw; kw_cflags := cflags;
     kw_ldflags := kw_ldflags kw; kw_libraries := kw_libraries kw;
     kw_include_dirs := kw_include_dirs kw;
     kw_library_dirs := kw_library_dirs kw;
     kw_so_ext := kw_so_ext kw; kw_o_ext := kw_o_ext kw;
     kw_defines := kw_defines kw; kw_undefines := kw_undefines kw |}.

Definition guess_toolchain (h : Host) (make_vars : gmap string string)
    (sys_maxint : option Z) : guess Toolchain :=
  kwargs ← _guess_toolchain_kwargs_from_python_config make_vars;
  let '(result, version, stderr) :=
    call_capture_output h [kw_cc kwargs; "--version"] in
  if decide (result ≠ 0)
  then GuessRaise (ToolchainGuessError
                     ("compiler version query failed: " +:+ stderr))
  else if Py.contains "Free Software Foundation" version
  then
    cflags ← corrected_cflags sys_maxint version (kw_cflags kwargs);
    mret (construct GCC (with_cflags kwargs cflags))
  else if Py.contains "Apple LLVM" version && Py.contains "clang" version
  then
    cflags ← corrected_cflags sys_maxint version (kw_cflags kwargs);
    mret (construct GCC (with_cflags kwargs cflags))
  else GuessRaise (ToolchainGuessError "unknown compiler").

Definition guess_nvcc_toolchain (make_vars : gmap string string)
  : guess Toolchain :=
  gcc_kwargs ← _guess_toolchain_kwargs_from_python_config make_vars;
  let kwargs :=
    {| kw_cc := "nvcc";
       kw_ld := None;
       kw_cflags := ["-Xcompiler"; Py.join "," (kw_cflags gcc_kwargs)];
       kw_ldflags := [];
       kw_libraries := kw_libraries gcc_kwargs;
       kw_include_dirs := kw_include_dirs gcc_kwargs;
       kw_library_dirs := kw_library_dirs gcc_kwargs;
       kw_so_ext := kw_so_ext gcc_kwargs;
       kw_o_ext := kw_o_ext gcc_kwargs;
       kw_defines := kw_defines gcc_kwargs;
       kw_undefines := kw_undefines gcc_kwargs ++ ["__BLOCKS__"] |} in
  mret (construct NVCC kwargs).

End Configuration.

(** ** Vocabulary of the statements *)

(** The flag a library name becomes on the link command line of a class. *)
Definition library_flag (k : backend) (lib : string) : string :=
  match k with
  | ISPC => ISPCToolchain.link_flag lib
  | GCC | NVCC => "-l" +:+ lib
  end.

(** The prefixes [with_optimization_level] strips in a class. *)
Definition stripped (k : backend) : list string :=
  match k with
  | GCC => GCCToolchain.stripped_prefixes
  | ISPC => ISPCToolchain.stripped_prefixes
  | NVCC => []
  end.

(** [for pfx in ...: cflags = remove_prefix(cflags, pfx)] *)
Definition strip (pfxs : list string) (l : list string) : list string :=
  fold_left GCCToolchain.remove_prefix pfxs l.

(** [f] starts with one of [pfxs]. *)
Definition has_prefix_in (pfxs : list string) (f : string) : bool :=
  existsb (Py.startswith f) pfxs.

(** Two configurations that agree on every field but [features]. *)
Definition same_but_features (a b : Toolchain) : Prop :=
  cls a = cls b ∧ cc a = cc b ∧ cpp a = cpp b ∧ ld a = ld b
  ∧ cflags a = cflags b ∧ cppflags a = cppflags b ∧ ldflags a = ldflags b
  ∧ defines a = defines b ∧ undefines a = undefines b
  ∧ include_dirs a = include_dirs b ∧ library_dirs a = library_dirs b
  ∧ libraries a = libraries b ∧ so_ext a = so_ext b ∧ o_ext a = o_ext b.

(** The list-valued fields a compile flag, define, undefine or search
    path lives in. *)
Inductive abi_field : Type :=
| Fcflags | Fdefines | Fundefines | Finclude_dirs | Flibrary_dirs.

Global Instance abi_field_eq_dec : EqDecision abi_field.
Proof. solve_decision. Defined.

Definition field (f : abi_field) (t : Toolchain) : list string :=
  match f with
  | Fcflags => cflags t
  | Fdefines => defines t
  | Fundefines => undefines t
  | Finclude_dirs => include_dirs t
  | Flibrary_dirs => library_dirs t
  end.

(** Two configurations of one class that agree on everything the baseline
    command line is made of, except possibly the field [f]. *)
Definition agree_but (f : abi_field) (a b : Toolchain) : Prop :=
  cls a = cls b ∧ cc a = cc b ∧ ldflags a = ldflags b
  ∧ libraries a = libraries b
  ∧ ∀ g, g ≠ f → field g a = field g b.

(** The command line [self._cmdline([])] of every class. *)
Definition baseline (t : Toolchain) : list string :=
  [cc t] ++ cflags t ++ ldflags t
  ++ flag "-D" (defines t) ++ flag "-U" (undefines t)
  ++ flag "-I" (include_dirs t)
  ++ [] ++ flag "-L" (library_dirs t)
  ++ (library_flag (cls t) <$> libraries t).

(** A token: non-empty and free of white space. *)
Definition is_token (s : string) : bool :=
  negb (String.eqb s EmptyString)
  && forallb (λ c, negb (Py.isspace c)) (list_ascii_of_string s).

(** The captured output the spec gives as its example: a rule continued
    over two physical lines. *)
Definition example_output : string :=
  "out.o: a.h b.h \" +:+ Py.newline +:+ "c.h".



(** ** Concrete configurations and hosts *)

Definition host_of (run : list string → Z * string * string) : Host :=
  {| subprocess := run;
     sys_version := "3.8.10 (default, Nov 22 2023, 10:22:35)";
     tempfile_name := "/tmp/loopyk3v9x2";
     tempfile_read := λ _, "";
     module_realpath := "/usr/lib/python3/site-packages/codepy/toolchain.py" |}.

(** A host whose compiler answers every command with exit code 0 and the
    given output. *)
Definition version_host : Host :=
  host_of (λ _, (0, "gcc (GCC) 4.8.5 20150623", "")).

(** A host on which every command fails. *)
Definition failing_host : Host := host_of (λ _, (1, "", "gcc: not found")).

(** A host whose dependency scan prints the example. *)
Definition example_host : Host := host_of (λ _, (0, example_output, "")).



Definition sample (k : backend) (compiler : string) (flags defs : list string)
    (feats : gset string) : Toolchain :=
  {| cls := k; cc := compiler; cpp := "g++"; ld := "ld";
     cflags := flags; cppflags := ["-fPIC"]; ldflags := ["-shared"];
     defines := defs; undefines := ["B"];
     include_dirs := ["/usr/include"]; library_dirs := ["/usr/lib"];
     libraries := ["m"]; so_ext := ".so"; o_ext := ".o"; features := feats |}.

Definition gcc_sample : Toolchain := sample GCC "gcc" ["-O2"; "-Wall"] ["A"] ∅.
Definition gcc_sample_boost : Toolchain :=
  sample GCC "gcc" ["-O2"; "-Wall"] ["A"] {["boost"]}.
Definition gcc_sample_level3 : Toolchain :=
  sample GCC "gcc"
    ["-Wall"; "-O3"; "-DNDEBUG"; "-march=native"; "-mtune=native"] ["A"] ∅.
Definition gcc_sample_O3 : Toolchain := sample GCC "gcc" ["-O3"; "-Wall"] ["A"] ∅.

(** Two configurations without link flags: the macro [X] as a compile
    flag, and as a define. *)
Definition define_in (flags defs : list string) : Toolchain :=
  {| cls := GCC; cc := "gcc"; cpp := "g++"; ld := "ld";
     cflags := flags; cppflags := []; ldflags := [];
     defines := defs; undefines := [];
     include_dirs := ["/usr/include"]; library_dirs := ["/usr/lib"];
     libraries := ["m"]; so_ext := ".so"; o_ext := ".o"; features := ∅ |}.
Definition gcc_define_in_cflags : Toolchain := define_in ["-DX"] [].
Definition gcc_define_in_defines : Toolchain := define_in [] ["X"].

Definition nvcc_sample : Toolchain := sample NVCC "nvcc" ["-Xcompiler"; "-fPIC"] [] ∅.
Definition ispc_sample : Toolchain :=
  sample ISPC "ispc" ["--pic"; "--target"; "host"] ["ISPC_USE_OMP"] ∅.



(** ** Vocabulary of the further statements *)

(** The character [c] does not occur in [s]. *)
Definition no_char (c : ascii) (s : string) : bool :=
  forallb (λ a, negb (Ascii.eqb a c)) (list_ascii_of_string s).

(** A component of a dotted version number: a token without a dot, and
    without the underscore that newer versions of [int] allow between
    digits. *)
Definition is_component (s : string) : bool :=
  is_token s && (no_char "." s && no_char "_" s).

(** The value [digits_go] reads off the digits of [d], after [acc]. *)
Fixpoint uint_value (acc : Z) (d : Decimal.uint) : Z :=
  match d with
  | Decimal.Nil => acc
  | Decimal.D0 d => uint_value (10 * acc + 0) d
  | Decimal.D1 d => uint_value (10 * acc + 1) d
  | Decimal.D2 d => uint_value (10 * acc + 2) d
  | Decimal.D3 d => uint_value (10 * acc + 3) d
  | Decimal.D4 d => uint_value (10 * acc + 4) d
  | Decimal.D5 d => uint_value (10 * acc + 5) d
  | Decimal.D6 d => uint_value (10 * acc + 6) d
  | Decimal.D7 d => uint_value (10 * acc + 7) d
  | Decimal.D8 d => uint_value (10 * acc + 8) d
  | Decimal.D9 d => uint_value (10 * acc + 9) d
  end.

(** The tail of a text after a line: nothing, or a newline and more. *)
Definition line_end (tail : string) : Prop :=
  tail = EmptyString ∨ ∃ r, tail = String "010" r.

(** The tail of a text after a word: nothing, or white space and more. *)
Definition word_end (tail : string) : Prop :=
  tail = EmptyString ∨ ∃ c r, tail = String c r ∧ Py.isspace c = true.

(** Components after the numbers of a version: none, or a first one that
    [int] rejects. *)
Definition not_a_number_first (junk : list string) : Prop :=
  junk = [] ∨ ∃ j r, junk = j :: r ∧ Py.int j = None.

(** A flag that sets the optimization level or asks for debug symbols. *)
Definition level_flag (f : string) : bool :=
  Py.startswith f "-O" || Py.startswith f "-g".

(** A flag that tunes for an architecture. *)
Definition arch_flag (f : string) : bool :=
  Py.startswith f "-march" || Py.startswith f "-mtune".

(** Whether the GCC class adds the native tuning flags at a level. *)
Definition arch_gate (h : Host) (self : Toolchain) (lvl : level) : bool :=
  match lvl with
  | Debug => false
  | Level n =>
      (2 <=? n)
      && match GCCToolchain.get_version_tuple h self with
         | Return vt => Py.tuple_ge vt [4; 3]
         | Raise _ => false
         end
  end.

(** What a build step echoes to standard output before it runs its
    command. *)
Definition echo (debug : bool) (cc_cmdline : list string) : list string :=
  if debug then [Py.join " " cc_cmdline] else [].


(** The value of a makefile variable, empty where it is not set. *)
Definition var (make_vars : gmap string string) (key : string) : string :=
  default EmptyString (make_vars !! key).

(** The variables [_guess_toolchain_kwargs_from_python_config] reads by
    subscript. *)
Definition required_vars : list string :=
  ["CXX"; "CFLAGS"; "CFLAGSFORSHARED"; "MODOBJS"; "LIBS"; "LDSHARED";
   "LINKFORSHARED"; "INCLUDEPY"; "LIBDIR"].

(** The words of the compiler command of the makefile. *)
Definition cc_cmdline (make_vars : gmap string string) : list string :=
  Py.split (var make_vars "CXX") ++ Py.split (var make_vars "CFLAGS")
  ++ Py.split (var make_vars "CFLAGSFORSHARED").

(** A word that is neither a define nor an undefine. *)
Definition plain_flag (f : string) : bool :=
  negb (Py.startswith f "-D") && negb (Py.startswith f "-U").

(** How often [x] occurs in [l]. *)
Definition count (x : string) (l : list string) : nat :=
  length (List.filter (λ y, bool_decide (y = x)) l).

(** Whether [guess_toolchain] recognizes a version text. *)
Definition known_compiler (version : string) : bool :=
  Py.contains "Free Software Foundation" version
  || (Py.contains "Apple LLVM" version && Py.contains "clang" version).

(** ** Further hosts and inputs *)

(** The banner of a CUDA compiler: the release is on the fourth line,
    followed by a comma. *)
Definition nvcc_version_text : string :=
  "nvcc: NVIDIA (R) Cuda compiler driver" +:+ Py.newline
  +:+ "Copyright (c) 2005-2019 NVIDIA Corporation" +:+ Py.newline
  +:+ "Built on Wed_Oct_23_19:24:38_PDT_2019" +:+ Py.newline
  +:+ "Cuda compilation tools, release 10.2, V10.2.89" +:+ Py.newline.

Definition nvcc_version_host : Host := host_of (λ _, (0, nvcc_version_text, "")).

(** A banner whose fifth word is a version number. *)
Definition ispc_version_text : string :=
  "Intel(r) SPMD Program Compiler 1.9.1dev" +:+ Py.newline
  +:+ "(build commit 87d0c9a7ed)" +:+ Py.newline.

Definition ispc_version_host : Host := host_of (λ _, (0, ispc_version_text, "")).



(** The variables of an interpreter's makefile, and the keyword arguments
    guessed from them. *)
Definition sample_make_vars : gmap string string :=
  list_to_map
    [("CXX", "g++ -pthread");
     ("CFLAGS", "-Wall -Wstrict-prototypes -DNDEBUG -O2 -UFOO");
     ("CFLAGSFORSHARED", "-fPIC -Wstrict-prototypes");
     ("MODOBJS", "Modules/config.o Modules/main.o");
     ("LIBS", "-lpthread -ldl -framework");
     ("LDSHARED", "g++ -pthread -shared");
     ("LINKFORSHARED", "-Xlinker -export-dynamic");
     ("INCLUDEPY", "/usr/include/python3.8");
     ("LIBDIR", "/usr/lib")].

Definition sample_kwargs : Configuration.kwargs :=
  {| Configuration.kw_cc := "g++";
     Configuration.kw_ld := Some "g++";
     Configuration.kw_cflags :=
       ["-pthread"; "-Wall"; "-Wstrict-prototypes"; "-O2"; "-fPIC";
        "-Wstrict-prototypes"; "-framework"];
     Configuration.kw_ldflags :=
       ["-pthread"; "-shared"; "-Xlinker"; "-export-dynamic"];
     Configuration.kw_libraries := ["pthread"; "dl"];
     Configuration.kw_include_dirs := ["/usr/include/python3.8"];
     Configuration.kw_library_dirs := ["/usr/lib"];
     Configuration.kw_so_ext := ".so";
     Configuration.kw_o_ext := ".o";
     Configuration.kw_defines := ["NDEBUG"];
     Configuration.kw_undefines := ["FOO"] |}.

(** A makefile without the variable [LIBS]. *)
Definition make_vars_without_libs : gmap string string :=
  delete "LIBS" sample_make_vars.

(** Hosts whose compiler is a GNU one on Linux, a GNU one on Darwin, and
    a clang that is not Apple's. *)
Definition gnu_version_text : string :=
  "g++ (GCC) 9.3.0" +:+ Py.newline
  +:+ "Copyright (C) 2019 Free Software Foundation, Inc." +:+ Py.newline.

Definition gnu_host : Host := host_of (λ _, (0, gnu_version_text, "")).



(** * Properties *)

Global Instance Return_inj {A} : Inj (=) (=) (@Return A).
Proof. by intros ?? [=]. Qed.

(** ** Parsing the output of a dependency scan *)

Section split.
Implicit Types (s cur rest tok : string) (toks : list string).

Lemma append_cons a s rest : String a s +:+ rest = String a (s +:+ rest).
Proof. done. Qed.

Lemma append_nil_r s : s +:+ "" = s.
Proof. induction s as [|a s IH]; [done|]. by rewrite append_cons, IH. Qed.

Lemma rev_app_rev_app s1 : ∀ s2 s3,
  String.rev_app (String.rev_app s1 s2) s3 = String.rev_app s2 (s1 +:+ s3).
Proof.
  induction s1 as [|a s1 IH]; intros s2 s3; [done|].
  simpl. by rewrite IH.
Qed.

Lemma rev_rev_app tok : String.rev (String.rev_app tok "") = tok.
Proof. unfold String.rev. by rewrite rev_app_rev_app, append_nil_r. Qed.

Lemma rev_app_nonempty s : ∀ a cur, String.rev_app s (String a cur) ≠ "".
Proof. induction s as [|b s IH]; intros a cur; [done|]. apply IH. Qed.

Lemma flush_token tok :
  is_token tok = true → Py.flush (String.rev_app tok "") = [tok].
Proof.
  destruct tok as [|a tok]; [done|]. intros _. simpl.
  pose proof (rev_app_nonempty tok a "") as Hne.
  pose proof (rev_rev_app (String a tok)) as Hrev. simpl in Hrev.
  unfold Py.flush. destruct (String.rev_app tok (String a "")); [done|].
  by rewrite Hrev.
Qed.

Lemma split_go_token tok : ∀ cur rest,
  forallb (λ c, negb (Py.isspace c)) (list_ascii_of_string tok) = true →
  Py.split_go cur (tok +:+ rest) = Py.split_go (String.rev_app tok cur) rest.
Proof.
  induction tok as [|a tok IH]; intros cur rest; [done|].
  simpl. intros [Ha Htok]%andb_prop. rewrite ?append_cons. simpl.
  apply negb_true_iff in Ha. rewrite Ha. by apply IH.
Qed.

(** Splitting the tokens of a line joined by single blanks gives the
    tokens back. *)
Lemma split_join toks :
  Forall (λ tok, is_token tok = true) toks →
  Py.split (Py.join " " toks) = toks.
Proof.
  unfold Py.split, Py.join.
  induction 1 as [|tok toks Htok Htoks IH]; [done|].
  pose proof Htok as [_ Hns]%andb_prop.
  destruct toks as [|tok' toks].
  - simpl. rewrite <-(append_nil_r tok) at 1.
    rewrite split_go_token by done. simpl. by apply flush_token.
  - change (String.concat " " (tok :: tok' :: toks))
      with (tok +:+ String " " (String.concat " " (tok' :: toks))).
    rewrite split_go_token by done.
    change (Py.split_go ?c (String " " ?r))
      with (Py.flush c ++ Py.split_go "" r).
    by rewrite flush_token, IH.
Qed.

Lemma dependency_tokens_elem (lines : list string) tok :
  tok ∈ GCCLikeToolchain.dependency_tokens lines
  ↔ ∃ line, line ∈ lines ∧ tok ∈ drop 2 (Py.split line).
Proof.
  unfold GCCLikeToolchain.dependency_tokens.
  rewrite list_elem_of_join. split.
  - intros (l & Htok & (line & -> & Hline)%list_elem_of_fmap). eauto.
  - intros (line & Hline & Htok). eexists. split; [done|].
    apply list_elem_of_fmap. eauto.
Qed.

Lemma dependency_tokens_rules (rules : list (string * list string)) :
  Forall (λ r, Forall (λ tok, is_token tok = true) (r.1 :: r.2)) rules →
  GCCLikeToolchain.dependency_tokens ((λ r, Py.join " " (r.1 :: r.2)) <$> rules)
  = mjoin ((λ r, drop 1 r.2) <$> rules).
Proof.
  unfold GCCLikeToolchain.dependency_tokens.
  induction 1 as [|[tgt deps] rules Hr _ IH]; [done|].
  assert (drop 2 (Py.split (Py.join " " (tgt :: deps))) = drop 1 deps) as Hhd.
  { rewrite split_join by done. by destruct deps. }
  rewrite !fmap_cons.
  change (mjoin (?x :: ?l)) with (x ++ mjoin l).
  cbn beta iota delta [fst snd]. by rewrite IH, Hhd.
Qed.
End split.

(** C1 (amended): a dependency scan that exits with zero returns the set
    of the tokens that remain once the first two tokens of every logical
    line are dropped.  On a line "target: dep1 dep2 ..." the first token is
    "target:" and the second is dep1, so dep1 is dropped with the target;
    for the continued input "out.o: a.h b.h \" / "c.h" the result is
    {"b.h", "c.h"}. *)
Theorem get_dependencies_tokens (h : Host) (self : Toolchain)
    (source_files : list string) (out err : string) :
  call_capture_output h (GCCLikeToolchain.dependency_argv self source_files)
    = (0, out, err) →
  ∃ deps,
    GCCLikeToolchain.get_dependencies h self source_files = Return deps
    ∧ (∀ tok, tok ∈ deps ↔
         ∃ line, line ∈ join_continued_lines (Py.split_on "010" out)
                 ∧ tok ∈ drop 2 (Py.split line))
    ∧ (∀ rules : list (string * list string),
         Forall (λ r, Forall (λ tok, is_token tok = true) (r.1 :: r.2)) rules →
         join_continued_lines (Py.split_on "010" out)
           = (λ r, Py.join " " (r.1 :: r.2)) <$> rules →
         deps = list_to_set (mjoin ((λ r, drop 1 r.2) <$> rules)))
    ∧ (out = example_output → deps = {["b.h"; "c.h"]}).
Proof.
  intros Hrun. unfold GCCLikeToolchain.get_dependencies. rewrite Hrun.
  rewrite decide_False by (by intros []).
  eexists. split; [done|]. split_and!.
  - intros tok. by rewrite elem_of_list_to_set, dependency_tokens_elem.
  - intros rules Hrules ->. by rewrite dependency_tokens_rules.
  - intros ->.
    change (join_continued_lines (Py.split_on "010" example_output))
      with ["out.o: a.h b.h c.h"].
    change (GCCLikeToolchain.dependency_tokens ["out.o: a.h b.h c.h"])
      with ["b.h"; "c.h"].
    by vm_compute.
Qed.

(** ** The ABI identifier *)

Section abi_id.
Implicit Types (a b t : Toolchain) (h : Host).

Lemma cmdline_baseline t : _cmdline t [] false = Return (baseline t).
Proof.
  unfold _cmdline, baseline, library_flag. destruct (cls t); [done..|].
  unfold ISPCToolchain._cmdline, ISPCToolchain.get_cc. simpl.
  by rewrite decide_False by (by intros []).
Qed.

Lemma abi_id_eq h t :
  abi_id h t
  = match GCCLikeToolchain.get_version h t with
    | Return v =>
        Return [Toolchain.AbiStr v; Toolchain.AbiStr (sys_version h);
                Toolchain.AbiList (baseline t)]
    | Raise e => Raise e
    end.
Proof.
  pose proof (cmdline_baseline t) as Hb. unfold _cmdline in Hb.
  unfold abi_id. revert Hb.
  destruct (cls t); intros Hb;
    unfold GCCToolchain.abi_id, NVCCToolchain.abi_id, ISPCToolchain.abi_id,
      GCCToolchain.get_version, NVCCToolchain.get_version,
      ISPCToolchain.get_version, Toolchain.abi_id;
    rewrite Hb; by destruct (GCCLikeToolchain.get_version h t).
Qed.

Lemma abi_id_features h a b :
  same_but_features a b → abi_id h a = abi_id h b.
Proof.
  intros (Hk&Hcc&_&_&Hcf&_&Hldf&Hd&Hu&Hi&Hl&Hlib&_&_). rewrite !abi_id_eq.
  unfold GCCLikeToolchain.get_version, baseline.
  by rewrite Hk, Hcc, Hcf, Hldf, Hd, Hu, Hi, Hl, Hlib.
Qed.

Lemma flag_inj pfx : Inj (=) (=) (flag pfx).
Proof. unfold flag. apply _. Qed.

Lemma baseline_field f a b :
  agree_but f a b → baseline a = baseline b → field f a = field f b.
Proof.
  intros (Hk & Hcc & Hld & Hlib & Hg). unfold baseline.
  rewrite Hk, Hcc, Hld, Hlib.
  pose proof (Hg Fcflags) as Hc. pose proof (Hg Fdefines) as Hd.
  pose proof (Hg Fundefines) as Hu. pose proof (Hg Finclude_dirs) as Hi.
  pose proof (Hg Flibrary_dirs) as Hl. simpl in *. clear Hg.
  destruct f; simpl;
    rewrite ?Hc, ?Hd, ?Hu, ?Hi, ?Hl by done;
    intros H; simplify_list_eq; try done; by eapply flag_inj.
Qed.
End abi_id.

(** C2 (amended): [abi_id] does not read [features], so configurations
    that differ in nothing else have the same identifier.  It returns the
    version string, the interpreter version and the baseline command line,
    so two configurations of one class with different baseline command
    lines have different identifiers; in particular two that agree on the
    compiler, the link flags and the libraries and differ in exactly one of
    [cflags], [defines], [undefines], [include_dirs] and [library_dirs]. *)
Theorem abi_id_distinguishes (h : Host) (a b : Toolchain) :
  (same_but_features a b → abi_id h a = abi_id h b)
  ∧ (∀ va vb,
       abi_id h a = Return va → abi_id h b = Return vb →
       (baseline a ≠ baseline b → va ≠ vb)
       ∧ ∀ f, agree_but f a b → field f a ≠ field f b → va ≠ vb).
Proof.
  split; [apply abi_id_features|].
  intros va vb. rewrite !abi_id_eq.
  destruct (GCCLikeToolchain.get_version h a); [|done].
  destruct (GCCLikeToolchain.get_version h b); [|done].
  intros [= <-] [= <-].
  assert (baseline a ≠ baseline b →
          [Toolchain.AbiStr a0; Toolchain.AbiStr (sys_version h);
           Toolchain.AbiList (baseline a)]
          ≠ [Toolchain.AbiStr a1; Toolchain.AbiStr (sys_version h);
             Toolchain.AbiList (baseline b)]) as Hb by congruence.
  split; [done|].
  intros f Hagree Hf. apply Hb. intros Heq. by apply Hf, baseline_field.
Qed.

(** ** Merging a library into a toolchain *)

Section add_library.
Implicit Types (dirs given added : list string) (self : Toolchain).

Lemma append_missing_spec given : ∀ dirs,
  NoDup dirs →
  ∃ added,
    Toolchain.append_missing dirs given = dirs ++ added
    ∧ NoDup (dirs ++ added)
    ∧ added `sublist_of` given
    ∧ ∀ d, d ∈ added ↔ d ∈ given ∧ d ∉ dirs.
Proof.
  unfold Toolchain.append_missing.
  induction given as [|d given IH]; intros dirs Hnd; simpl.
  - exists []. rewrite app_nil_r. split_and!; [done..|].
    intros d. rewrite elem_of_nil. tauto.
  - case_decide as Hd.
    + destruct (IH dirs Hnd) as (added & -> & ? & ? & Hin).
      exists added. split_and!; [done..|by apply sublist_cons|].
      intros x. rewrite Hin, elem_of_cons.
      split; [tauto|]. intros [[->|?] ?]; [done|tauto].
    + destruct (IH (dirs ++ [d])) as (added & -> & Hnd' & ? & Hin).
      { apply NoDup_app. split_and!; [done| |apply NoDup_singleton].
        by intros x ? ->%list_elem_of_singleton. }
      exists (d :: added). rewrite <-(assoc_L (++)) in *. simpl in *.
      split_and!; [done..|by apply sublist_skip|].
      intros x. rewrite elem_of_cons, Hin.
      rewrite not_elem_of_app, list_elem_of_singleton, (elem_of_cons given).
      destruct (decide (x = d)) as [->|]; tauto.
Qed.

Lemma add_library_present self feature idirs ldirs libs :
  feature ∈ features self →
  Toolchain.add_library self feature idirs ldirs libs = self.
Proof. intros ?. unfold Toolchain.add_library. by rewrite decide_True. Qed.

Lemma add_library_records self feature idirs ldirs libs :
  feature ∈ features (Toolchain.add_library self feature idirs ldirs libs).
Proof.
  unfold Toolchain.add_library. case_decide; [done|]. simpl.
  apply elem_of_union_l, elem_of_singleton. done.
Qed.
End add_library.

(** C3: a feature that is already recorded makes [add_library] a no-op,
    on the record and on the store that holds it; so a second call with the
    same feature name and arguments changes nothing the first has not
    already done. *)
Theorem add_library_idempotent (self : Toolchain) (feature : string)
    (idirs ldirs libs : list string) :
  (feature ∈ features self →
     Toolchain.add_library self feature idirs ldirs libs = self
     ∧ ∀ (σ : Heap.heap) (l : Heap.loc), σ !! l = Some self →
         Heap.add_library σ l feature idirs ldirs libs = σ)
  ∧ Toolchain.add_library
      (Toolchain.add_library self feature idirs ldirs libs)
      feature idirs ldirs libs
    = Toolchain.add_library self feature idirs ldirs libs
  ∧ ∀ (σ : Heap.heap) (l : Heap.loc), σ !! l = Some self →
      Heap.add_library (Heap.add_library σ l feature idirs ldirs libs)
        l feature idirs ldirs libs
      = Heap.add_library σ l feature idirs ldirs libs.
Proof.
  split_and!.
  - intros Hin. split; [by apply add_library_present|].
    intros σ l Hl. unfold Heap.add_library. rewrite Hl.
    rewrite add_library_present by done. by apply insert_id.
  - apply add_library_present, add_library_records.
  - intros σ l Hl. unfold Heap.add_library. rewrite Hl. cbn.
    rewrite lookup_insert_eq.
    rewrite add_library_present by apply add_library_records.
    by rewrite insert_insert_eq.
Qed.

Ltac solve_suffix :=
  unfold flag;
  repeat first [ reflexivity | apply suffix_cons_r | apply suffix_app_r ].

Lemma cmdline_link_tail (self : Toolchain) (files cmd : list string) :
  _cmdline self files false = Return cmd →
  ∃ pre, cmd = pre ++ (library_flag (cls self) <$> libraries self).
Proof.
  unfold _cmdline, library_flag.
  change (∃ pre, cmd = pre ++ ?x) with (x `suffix_of` cmd).
  destruct (cls self); cbn.
  - intros [= <-]. solve_suffix.
  - intros [= <-]. solve_suffix.
  - unfold ISPCToolchain._cmdline.
    destruct (decide _); cbn.
    + destruct (ISPCToolchain.check_extensions files); cbn; [|done].
      intros [= <-]. solve_suffix.
    + intros [= <-]. solve_suffix.
Qed.

Lemma cmdline_returns (self : Toolchain) (files : list string) (object : bool) :
  cls self ≠ ISPC → ∃ cmd, _cmdline self files object = Return cmd.
Proof. unfold _cmdline. destruct (cls self); [by eexists..|done]. Qed.

(** C4: on a toolchain whose directory lists are duplicate-free, merging a
    feature not yet recorded appends exactly the given directories that
    are missing, each once and in the order given, after the entries that
    were there; the new libraries go in front of the old ones, and so do
    their flags on the link command line. *)
Theorem add_library_merges (self : Toolchain) (feature : string)
    (idirs ldirs libs : list string) :
  NoDup (include_dirs self) →
  NoDup (library_dirs self) →
  feature ∉ features self →
  let self' := Toolchain.add_library self feature idirs ldirs libs in
  (∃ new_i new_l,
     include_dirs self' = include_dirs self ++ new_i
     ∧ library_dirs self' = library_dirs self ++ new_l
     ∧ new_i `sublist_of` idirs
     ∧ new_l `sublist_of` ldirs
     ∧ (∀ d, d ∈ new_i ↔ d ∈ idirs ∧ d ∉ include_dirs self)
     ∧ (∀ d, d ∈ new_l ↔ d ∈ ldirs ∧ d ∉ library_dirs self))
  ∧ NoDup (include_dirs self')
  ∧ NoDup (library_dirs self')
  ∧ libraries self' = libs ++ libraries self
  ∧ features self' = {[feature]} ∪ features self
  ∧ (∀ files cmd, _cmdline self' files false = Return cmd →
       ∃ pre, cmd = pre ++ (library_flag (cls self) <$> libs)
                        ++ (library_flag (cls self) <$> libraries self))
  ∧ (cls self ≠ ISPC → ∀ files, ∃ cmd, _cmdline self' files false = Return cmd).
Proof.
  intros Hi Hl Hf self'.
  assert (Hcls : cls self' = cls self).
  { unfold self', Toolchain.add_library. by case_decide. }
  assert (Hlibs : libraries self' = libs ++ libraries self).
  { unfold self', Toolchain.add_library. by rewrite decide_False. }
  destruct (append_missing_spec idirs _ Hi) as (new_i & Ei & ? & ? & ?).
  destruct (append_missing_spec ldirs _ Hl) as (new_l & El & ? & ? & ?).
  assert (Hid : include_dirs self' = include_dirs self ++ new_i).
  { unfold self', Toolchain.add_library. by rewrite decide_False. }
  assert (Hld : library_dirs self' = library_dirs self ++ new_l).
  { unfold self', Toolchain.add_library. by rewrite decide_False. }
  split_and!.
  - by exists new_i, new_l.
  - by rewrite Hid.
  - by rewrite Hld.
  - done.
  - unfold self', Toolchain.add_library. by rewrite decide_False.
  - intros files cmd Hcmd.
    destruct (cmdline_link_tail _ _ _ Hcmd) as [pre ->].
    exists pre. by rewrite Hcls, Hlibs, fmap_app.
  - intros Hk files. apply cmdline_returns. by rewrite Hcls.
Qed.

(** ** Changing the optimization level *)

Section optimization_level.
Implicit Types (l : list string) (pfxs : list string).

Lemma strip_filter pfxs : ∀ l,
  strip pfxs l = List.filter (λ f, negb (has_prefix_in pfxs f)) l.
Proof.
  unfold strip.
  induction pfxs as [|p pfxs IH]; intros l; simpl.
  - induction l; simpl; congruence.
  - rewrite IH. unfold GCCToolchain.remove_prefix.
    induction l as [|f l IHl]; simpl; [done|].
    destruct (Py.startswith f p); simpl; [done|].
    destruct (has_prefix_in pfxs f); simpl; congruence.
Qed.


Lemma strip_clean pfxs l :
  Forall (λ f, has_prefix_in pfxs f = false) (strip pfxs l).
Proof.
  rewrite strip_filter. apply Forall_forall. intros f Hf.
  apply list_elem_of_In, List.filter_In in Hf as [_ Hf].
  by destruct (has_prefix_in pfxs f).
Qed.







Lemma copy_cflags_twice self c1 c2 :
  copy_cflags (copy_cflags self c1) c2 = copy_cflags self c2.
Proof. done. Qed.

Lemma gcc_with_optimization_level_eq h self lvl :
  GCCToolchain.with_optimization_level h self lvl
  = match GCCToolchain.oflags h self lvl with
    | Return ofl =>
        Return (copy_cflags self
                  (strip GCCToolchain.stripped_prefixes (cflags self) ++ ofl))
    | Raise e => Raise e
    end.
Proof. done. Qed.

Lemma ispc_with_optimization_level_eq h self lvl :
  ISPCToolchain.with_optimization_level h self lvl
  = Return (copy_cflags self
              (strip ISPCToolchain.stripped_prefixes (cflags self)
               ++ ISPCToolchain.oflags lvl)).
Proof. done. Qed.

Lemma cflags_copy self c : cflags (copy_cflags self c) = c.
Proof. done. Qed.




End optimization_level.



(** ** Running a build *)

Section build.
Implicit Types (h : Host) (self : Toolchain) (con : Console).


Lemma run_cc_success h cc_cmdline con :
  call h cc_cmdline = 0 →
  GCCLikeToolchain.run_cc h cc_cmdline false con = (con, Return ()).
Proof.
  intros Hcall. unfold GCCLikeToolchain.run_cc.
  by rewrite decide_False by (by rewrite Hcall; intros []).
Qed.

End build.


(** What the check accepts: the first name has a dot, and every name
    ends with the text after its last dot. *)
Lemma check_extensions_passes (f0 : string) (rest : list string) :
  ISPCToolchain.check_extensions (f0 :: rest) = Return ()
  ↔ ∃ ext, Py.after_last "." f0 = Some ext
           ∧ forallb (λ f, Py.endswith f ext) (f0 :: rest) = true.
Proof.
  unfold ISPCToolchain.check_extensions, ISPCToolchain.__get_ext.
  destruct (Py.after_last "." f0) as [ext|]; cbn -[forallb mapM].
  - destruct (forallb _ (f0 :: rest)) eqn:E.
    + split; [by exists ext|done].
    + split.
      * by destruct (mapM _ _).
      * intros (ext' & [= <-] & ?). congruence.
  - split; [done|]. by intros (ext & ? & _).
Qed.

(** C7: the mixed-extension check compares each file name with the text
    after the last dot of the first one by [endswith].  Whenever the ISPC
    class picks the linker, it takes "c" from "a.c", finds that "b.cc"
    ends in "c" too, and returns a command line; no error names "c" and
    "cc".  An object file followed by a shared object passes the same
    way. *)
Theorem ispc_cmdline_accepts_c_and_cc (self : Toolchain) :
  ld self ≠ cc self →
  ISPCToolchain.__get_ext "a.c" = Return "c"
  ∧ ISPCToolchain.__get_ext "b.cc" = Return "cc"
  ∧ ISPCToolchain.get_cc self ["a.c"; "b.cc"] true = ld self
  ∧ ISPCToolchain._cmdline self ["a.c"; "b.cc"] true
    = Return ([ld self] ++ (cppflags self ++ ["-c"]) ++ []
              ++ flag "-D" (defines self) ++ flag "-U" (undefines self)
              ++ flag "-I" (include_dirs self) ++ ["a.c"; "b.cc"] ++ [])
  ∧ ISPCToolchain._cmdline self ["a.o"; "libb.so"] false
    = Return ([ld self] ++ (cppflags self ++ []) ++ ldflags self
              ++ flag "-D" (defines self) ++ flag "-U" (undefines self)
              ++ flag "-I" (include_dirs self) ++ ["a.o"; "libb.so"]
              ++ flag "-L" (library_dirs self)
              ++ (ISPCToolchain.link_flag <$> libraries self)).
Proof.
  intros Hld.
  assert (ISPCToolchain.get_cc self ["a.c"; "b.cc"] true = ld self) as Hget
    by done.
  assert (ISPCToolchain.get_cc self ["a.o"; "libb.so"] false = ld self)
    as Hget' by done.
  split_and!; [done..| |].
  - unfold ISPCToolchain._cmdline. rewrite Hget.
    by rewrite decide_True by done.
  - unfold ISPCToolchain._cmdline. rewrite Hget'.
    by rewrite decide_True by done.
Qed.

(** One ".ispc" and one ".cpp" file are told apart, and the error names
    both extensions. *)
Lemma ispc_cmdline_rejects_ispc_and_cpp (self : Toolchain) (obj : bool) :
  ld self ≠ cc self →
  ISPCToolchain._cmdline self ["a.ispc"; "b.cpp"] obj
  = Raise (CompileError "Can't compile mixed filetypes: ispc, cpp").
Proof.
  intros Hld.
  assert (ISPCToolchain.get_cc self ["a.ispc"; "b.cpp"] obj = ld self) as Hget
    by by destruct obj.
  unfold ISPCToolchain._cmdline. rewrite Hget.
  by rewrite decide_True by done.
Qed.

(** C8: with any source file at all, [build_extension] of the ISPC class
    fails on the name [file] before it looks at a path or runs a command,
    whether the companion source is among the inputs or not; only the
    empty list gets the bundled path appended and is handed on. *)
Theorem ispc_build_extension_name_error (h : Host) (self : Toolchain)
    (ext_file : string) (debug : bool) (con : Console) :
  (∀ f fs,
     ISPCToolchain.build_extension h self ext_file (f :: fs) debug con
     = (con, Raise (NameError "file")))
  ∧ ISPCToolchain.build_extension h self ext_file [] false con
    = GCCLikeToolchain.build_extension h ISPCToolchain._cmdline self ext_file
        [ISPCToolchain.tasksys_path h] false con.
Proof. done. Qed.


(** ** The ISPC constructor *)


(** ** The statements at concrete inputs *)

(** C1, as stated, fails on the spec's own example: "a.h" is the second
    token of the logical line and is dropped with the target. *)
Lemma get_dependencies_drops_first_dependency :
  GCCLikeToolchain.get_dependencies example_host gcc_sample ["out.c"]
    = Return {["b.h"; "c.h"]}
  ∧ GCCLikeToolchain.get_dependencies example_host gcc_sample ["out.c"]
    ≠ Return {["a.h"; "b.h"; "c.h"]}.
Proof.
  assert (GCCLikeToolchain.get_dependencies example_host gcc_sample ["out.c"]
          = Return {["b.h"; "c.h"]}) as E.
  { by vm_compute. }
  split; [done|]. rewrite E. intros H%(inj Return).
  assert ("a.h" ∈ ({["b.h"; "c.h"]} : gset string)) as Hin.
  { rewrite H. apply elem_of_union_l, elem_of_union_l, elem_of_singleton. done. }
  apply elem_of_union in Hin as [Hin|Hin]; by apply elem_of_singleton in Hin.
Qed.

(** C1 on the example output. *)
Lemma get_dependencies_tokens_witness :
  ∃ deps,
    GCCLikeToolchain.get_dependencies example_host gcc_sample ["out.c"]
      = Return deps
    ∧ deps = {["b.h"; "c.h"]}
    ∧ deps = list_to_set (mjoin [drop 1 ["a.h"; "b.h"; "c.h"]]).
Proof.
  destruct (get_dependencies_tokens example_host gcc_sample ["out.c"]
              example_output "" eq_refl) as (deps & Hret & _ & Hrules & Hex).
  exists deps. split; [exact Hret|]. split; [exact (Hex eq_refl)|].
  apply (Hrules [("out.o:", ["a.h"; "b.h"; "c.h"])]).
  - repeat constructor.
  - reflexivity.
Defined.

(** C2, as stated, fails: a macro given as a compile flag and the same
    macro given as a define are different configurations with one
    baseline command line, hence one identifier. *)
Lemma abi_id_collision :
  cls gcc_define_in_cflags = cls gcc_define_in_defines
  ∧ cflags gcc_define_in_cflags ≠ cflags gcc_define_in_defines
  ∧ defines gcc_define_in_cflags ≠ defines gcc_define_in_defines
  ∧ abi_id version_host gcc_define_in_cflags
    = Return [Toolchain.AbiStr "gcc (GCC) 4.8.5 20150623";
              Toolchain.AbiStr (sys_version version_host);
              Toolchain.AbiList
                ["gcc"; "-DX"; "-I/usr/include"; "-L/usr/lib"; "-lm"]]
  ∧ abi_id version_host gcc_define_in_cflags
    = abi_id version_host gcc_define_in_defines.
Proof.
  split_and!; [reflexivity|discriminate|discriminate|reflexivity|reflexivity].
Qed.

(** C2 on configurations that differ in [features], and in [cflags]. *)
Lemma abi_id_distinguishes_witness :
  abi_id version_host gcc_sample = abi_id version_host gcc_sample_boost
  ∧ ∃ va vb,
      abi_id version_host gcc_sample = Return va
      ∧ abi_id version_host gcc_sample_O3 = Return vb
      ∧ va ≠ vb.
Proof.
  split.
  - apply (proj1 (abi_id_distinguishes version_host gcc_sample gcc_sample_boost)).
    unfold same_but_features. repeat split; reflexivity.
  - eexists _, _. split; [reflexivity|]. split; [reflexivity|].
    apply (proj2 (proj2 (abi_id_distinguishes version_host gcc_sample gcc_sample_O3)
                     _ _ eq_refl eq_refl) Fcflags).
    + unfold agree_but. repeat split; try reflexivity.
      intros g Hg. destruct g; [destruct (Hg eq_refl)|reflexivity..].
    + simpl. discriminate.
Defined.

(** C3 on a toolchain that has recorded "boost". *)
Lemma add_library_idempotent_witness :
  Toolchain.add_library gcc_sample_boost "boost" ["/opt/include"] ["/opt/lib"]
      ["boost"]
    = gcc_sample_boost
  ∧ Heap.add_library {[1%positive := gcc_sample_boost]} 1%positive
      "boost" ["/opt/include"] ["/opt/lib"] ["boost"]
    = {[1%positive := gcc_sample_boost]}
  ∧ Heap.add_library
      (Heap.add_library {[1%positive := gcc_sample_boost]} 1%positive
         "boost" ["/opt/include"] ["/opt/lib"] ["boost"])
      1%positive "boost" ["/opt/include"] ["/opt/lib"] ["boost"]
    = Heap.add_library {[1%positive := gcc_sample_boost]} 1%positive
        "boost" ["/opt/include"] ["/opt/lib"] ["boost"].
Proof.
  destruct (add_library_idempotent gcc_sample_boost "boost"
              ["/opt/include"] ["/opt/lib"] ["boost"]) as (Hnoop & _ & Htwice).
  assert ("boost" ∈ features gcc_sample_boost) as Hin by (by vm_compute).
  destruct (Hnoop Hin) as [Hrec Hheap].
  split; [exact Hrec|]. split.
  - apply Hheap. reflexivity.
  - apply Htwice. reflexivity.
Defined.

(** C4 on a toolchain that has not recorded "boost" yet. *)
Lemma add_library_merges_witness :
  libraries (Toolchain.add_library gcc_sample "boost"
               ["/usr/include"; "/opt/include"] ["/opt/lib"] ["boost"])
    = ["boost"; "m"]
  ∧ NoDup (include_dirs (Toolchain.add_library gcc_sample "boost"
             ["/usr/include"; "/opt/include"] ["/opt/lib"] ["boost"])).
Proof.
  assert (NoDup (include_dirs gcc_sample)) as Hi by compute_done.
  assert (NoDup (library_dirs gcc_sample)) as Hl by compute_done.
  assert ("boost" ∉ features gcc_sample) as Hf by compute_done.
  destruct (add_library_merges gcc_sample "boost"
              ["/usr/include"; "/opt/include"] ["/opt/lib"] ["boost"] Hi Hl Hf)
    as (_ & Hnd & _ & Hlibs & _).
  split; [exact Hlibs|exact Hnd].
Defined.





(** C7 on the default executables of the ISPC class. *)
Lemma ispc_cmdline_accepts_c_and_cc_witness :
  ISPCToolchain._cmdline ispc_sample ["a.c"; "b.cc"] true
  = Return ["ld"; "-fPIC"; "-c"; "-DISPC_USE_OMP"; "-UB"; "-I/usr/include";
            "a.c"; "b.cc"].
Proof.
  assert (ld ispc_sample ≠ cc ispc_sample) as Hld by discriminate.
  destruct (ispc_cmdline_accepts_c_and_cc ispc_sample Hld)
    as (_ & _ & _ & H & _).
  exact H.
Defined.




(** * Further properties *)

(** ** Decimal literals *)

Section decimal.
Implicit Types (d : Decimal.uint) (acc z : Z) (p : positive).

Lemma digits_go_uint d : ∀ acc,
  Py.digits_go acc (NilEmpty.string_of_uint d) = Some (uint_value acc d).
Proof. induction d; intros acc; simpl; [done|by rewrite IHd..]. Qed.

Lemma uint_value_acc d : ∀ p,
  uint_value (Z.pos p) d = Z.pos (Pos.of_uint_acc d p).
Proof.
  induction d; intros p; simpl; [done|..];
    match goal with
    | |- uint_value ?a _ = Z.pos (Pos.of_uint_acc _ ?q) =>
        replace a with (Z.pos q) by lia
    end; apply IHd.
Qed.

Lemma uint_value_0 d : uint_value 0 d = Z.of_N (Pos.of_uint d).
Proof. induction d; simpl; [done|exact IHd|apply uint_value_acc..]. Qed.

Lemma digits_go_pos p :
  Py.digits_go 0 (NilEmpty.string_of_uint (Pos.to_uint p)) = Some (Z.pos p).
Proof.
  by rewrite digits_go_uint, uint_value_0, DecimalPos.Unsigned.of_to.
Qed.

Lemma string_of_uint_digits d :
  Forall (λ c, Py.is_digit c = true)
         (list_ascii_of_string (NilEmpty.string_of_uint d)).
Proof. induction d; simpl; by constructor. Qed.

Lemma string_of_uint_nonnil d :
  d ≠ Decimal.Nil →
  ∃ a r, NilEmpty.string_of_uint d = String a r ∧ Py.is_digit a = true.
Proof. destruct d; [done|intros _; simpl; eauto..]. Qed.

(** [int] reads back what ["%d"] prints. *)
Lemma int_fmt_d z : Py.int (Py.fmt_d z) = Some z.
Proof.
  unfold Py.fmt_d. destruct z as [|p|p]; [done|..]; simpl.
  - pose proof (digits_go_pos p) as Hp.
    destruct (string_of_uint_nonnil _ (DecimalPos.Unsigned.to_uint_nonnil p))
      as (a & r & E & Ha).
    unfold NilZero.string_of_uint.
    destruct (Pos.to_uint p) eqn:Ep; [by destruct (DecimalPos.Unsigned.to_uint_nonnil p)|..];
      simpl in *; exact Hp.
  - pose proof (digits_go_pos p) as Hp.
    unfold NilZero.string_of_uint.
    destruct (Pos.to_uint p) eqn:Ep; [by destruct (DecimalPos.Unsigned.to_uint_nonnil p)|..];
      simpl in *; by rewrite Hp.
Qed.
End decimal.

(** ** Splitting and joining *)

Section strings.
Implicit Types (s cur rest tok tail : string) (toks comps : list string)
  (c sep : ascii).

Lemma append_assoc s1 s2 s3 : (s1 +:+ s2) +:+ s3 = s1 +:+ s2 +:+ s3.
Proof. induction s1 as [|a s1 IH]; [done|]. by rewrite !append_cons, IH. Qed.

Lemma append_nil_l s : "" +:+ s = s.
Proof. done. Qed.

Lemma chars_append s1 s2 :
  list_ascii_of_string (s1 +:+ s2)
  = list_ascii_of_string s1 ++ list_ascii_of_string s2.
Proof.
  induction s1 as [|a s1 IH]; [done|]. rewrite append_cons. simpl.
  by rewrite IH.
Qed.

Lemma is_token_chars tok :
  is_token tok = true →
  forallb (λ c, negb (Py.isspace c)) (list_ascii_of_string tok) = true.
Proof. by intros [_ ?]%andb_prop. Qed.

Lemma split_token_ws tok c rest :
  is_token tok = true → Py.isspace c = true →
  Py.split (tok +:+ String c rest) = tok :: Py.split rest.
Proof.
  intros Htok Hc. unfold Py.split.
  rewrite split_go_token by by apply is_token_chars.
  simpl. by rewrite Hc, flush_token.
Qed.

Lemma split_ws c rest :
  Py.isspace c = true → Py.split (String c rest) = Py.split rest.
Proof. intros Hc. unfold Py.split. simpl. by rewrite Hc. Qed.

(** The words of a line of tokens are the tokens, whatever follows the
    line after a white-space character. *)
Lemma split_join_ws toks c rest :
  Forall (λ tok, is_token tok = true) toks → Py.isspace c = true →
  Py.split (Py.join " " toks +:+ String c rest) = toks ++ Py.split rest.
Proof.
  intros Htoks Hc. induction Htoks as [|tok toks Htok Htoks IH].
  - by apply split_ws.
  - destruct toks as [|tok' toks].
    + by apply split_token_ws.
    + change (Py.join " " (tok :: tok' :: toks))
        with (tok +:+ String " " (Py.join " " (tok' :: toks))).
      rewrite append_assoc, append_cons.
      rewrite split_token_ws by done. by rewrite IH.
Qed.

Lemma split_on_go_tok sep tok : ∀ cur rest,
  no_char sep tok = true →
  Py.split_on_go sep cur (tok +:+ rest)
  = Py.split_on_go sep (String.rev_app tok cur) rest.
Proof.
  induction tok as [|a tok IH]; intros cur rest; [done|].
  unfold no_char. simpl. intros [Ha Htok]%andb_prop.
  apply negb_true_iff in Ha. rewrite Ha. by apply IH.
Qed.

Lemma split_on_single sep tok :
  no_char sep tok = true → Py.split_on sep tok = [tok].
Proof.
  intros Htok. unfold Py.split_on.
  rewrite <-(append_nil_r tok) at 1. rewrite split_on_go_tok by done.
  simpl. by rewrite rev_rev_app.
Qed.

Lemma split_on_head sep tok rest :
  no_char sep tok = true →
  Py.split_on sep (tok +:+ String sep rest) = tok :: Py.split_on sep rest.
Proof.
  intros Htok. unfold Py.split_on. rewrite split_on_go_tok by done.
  simpl. by rewrite Ascii.eqb_refl, rev_rev_app.
Qed.

(** Splitting at the separator undoes joining with it, for pieces free
    of the separator. *)
Lemma split_on_join sep comps :
  comps ≠ [] → Forall (λ s, no_char sep s = true) comps →
  Py.split_on sep (Py.join (String sep "") comps) = comps.
Proof.
  intros Hne Hcomps. induction Hcomps as [|comp comps Hcomp Hcomps IH]; [done|].
  destruct comps as [|comp' comps].
  - by apply split_on_single.
  - change (Py.join (String sep "") (comp :: comp' :: comps))
      with (comp +:+ String sep (Py.join (String sep "") (comp' :: comps))).
    rewrite split_on_head by done. by rewrite IH.
Qed.

Lemma no_char_append c s1 s2 :
  no_char c (s1 +:+ s2) = no_char c s1 && no_char c s2.
Proof. unfold no_char. by rewrite chars_append, forallb_app. Qed.

Lemma no_char_cons c a s :
  no_char c (String a s) = negb (Ascii.eqb a c) && no_char c s.
Proof. done. Qed.

Lemma no_char_token_line toks :
  Forall (λ tok, is_token tok = true) toks →
  no_char "010" (Py.join " " toks) = true.
Proof.
  assert (∀ tok, is_token tok = true → no_char "010" tok = true) as Htok.
  { intros tok [_ H]%andb_prop. unfold no_char.
    apply forallb_forall. intros a Ha.
    eapply forallb_forall in H; [|done].
    by destruct a as [[] [] [] [] [] [] [] []]. }
  induction 1 as [|tok toks ? Htoks IH]; [done|].
  destruct toks as [|tok' toks]; [by apply Htok|].
  change (Py.join " " (tok :: tok' :: toks))
    with (tok +:+ String " " (Py.join " " (tok' :: toks))).
  by rewrite no_char_append, no_char_cons, Htok, IH.
Qed.

Lemma digit_component_char a :
  (Py.is_digit a = true ∨ a = "-"%char) →
  negb (Py.isspace a) = true ∧ negb (Ascii.eqb a ".") = true
  ∧ negb (Ascii.eqb a "_") = true.
Proof.
  intros [Ha| ->]; [|done].
  by destruct a as [[] [] [] [] [] [] [] []].
Qed.

Lemma fmt_d_chars z :
  Forall (λ a, Py.is_digit a = true ∨ a = "-"%char)
         (list_ascii_of_string (Py.fmt_d z)).
Proof.
  assert (∀ d, Forall (λ a, Py.is_digit a = true ∨ a = "-"%char)
                 (list_ascii_of_string (NilZero.string_of_uint d))) as Hd.
  { intros d. unfold NilZero.string_of_uint.
    destruct d; [repeat constructor; by left|..];
      (eapply Forall_impl; [apply string_of_uint_digits|by left]). }
  unfold Py.fmt_d, NilZero.string_of_int.
  destruct (Z.to_int z); [apply Hd|]. simpl. constructor; [by right|apply Hd].
Qed.

Lemma fmt_d_nonempty z : Py.fmt_d z ≠ "".
Proof.
  pose proof (int_fmt_d z) as H. intros E. by rewrite E in H.
Qed.

(** A printed integer is one component of a dotted version number. *)
Lemma fmt_d_component z : is_component (Py.fmt_d z) = true.
Proof.
  pose proof (fmt_d_chars z) as Hc. pose proof (fmt_d_nonempty z) as Hne.
  unfold is_component, is_token, no_char.
  destruct (Py.fmt_d z) as [|a r] eqn:E; [done|]. clear E Hne.
  rewrite !andb_true_iff. split_and!; [done|..];
    apply forallb_forall; intros b Hb%list_elem_of_In;
    eapply Forall_forall in Hc; [|done| |done| |done];
    by apply digit_component_char in Hc as (? & ? & ?).
Qed.
End strings.

(** ** Version tuples *)

Section version.
Implicit Types (h : Host) (self : Toolchain) (ns : list Z)
  (comps junk more : list string) (tail err : string).

Lemma leading_ints_app ns comps :
  GCCToolchain.leading_ints ((Py.fmt_d <$> ns) ++ comps)
  = ns ++ GCCToolchain.leading_ints comps.
Proof.
  induction ns as [|n ns IH]; [done|].
  rewrite fmap_cons. simpl. by rewrite int_fmt_d, IH.
Qed.

Lemma leading_ints_junk junk :
  not_a_number_first junk → GCCToolchain.leading_ints junk = [].
Proof. intros [->|(j & r & -> & Hj)]; [done|]. simpl. by rewrite Hj. Qed.

Lemma leading_ints_printed ns junk :
  not_a_number_first junk →
  GCCToolchain.leading_ints ((Py.fmt_d <$> ns) ++ junk) = ns.
Proof.
  intros Hj. by rewrite leading_ints_app, leading_ints_junk, app_nil_r.
Qed.

Lemma components_printed ns junk :
  Forall (λ s, is_component s = true) junk →
  Forall (λ s, is_component s = true) ((Py.fmt_d <$> ns) ++ junk).
Proof.
  intros Hj. apply Forall_app. split; [|done].
  apply Forall_fmap, Forall_forall. intros n _. apply fmt_d_component.
Qed.

Lemma join_components_token comps :
  comps ≠ [] → Forall (λ s, is_component s = true) comps →
  is_token (Py.join "." comps) = true.
Proof.
  intros Hne Hcomps.
  assert (forallb (λ c, negb (Py.isspace c))
            (list_ascii_of_string (Py.join "." comps)) = true) as Hws.
  { clear Hne. induction Hcomps as [|comp comps Hc _ IH]; [done|].
    apply andb_prop in Hc as [[_ Hc]%andb_prop _].
    destruct comps as [|comp' comps]; [done|].
    change (Py.join "." (comp :: comp' :: comps))
      with (comp +:+ String "." (Py.join "." (comp' :: comps))).
    rewrite chars_append, forallb_app, Hc. simpl. exact IH. }
  unfold is_token. rewrite Hws, andb_true_r.
  destruct Hcomps as [|comp comps Hc _]; [done|].
  apply andb_prop in Hc as [[Hc _]%andb_prop _].
  destruct comp as [|a comp]; [done|]. by destruct comps.
Qed.

Lemma split_on_components comps :
  comps ≠ [] → Forall (λ s, is_component s = true) comps →
  Py.split_on "." (Py.join "." comps) = comps.
Proof.
  intros Hne Hcomps. apply (split_on_join "."); [done|].
  eapply Forall_impl; [done|]. by intros s [_ [? _]%andb_prop]%andb_prop.
Qed.

Lemma first_line line tail :
  no_char "010" line = true → line_end tail →
  Py.split_on "010" (line +:+ tail) !! 0%nat = Some line.
Proof.
  intros Hline [->|[r ->]].
  - by rewrite append_nil_r, split_on_single.
  - by rewrite split_on_head.
Qed.

Lemma words_of_line toks tail :
  Forall (λ tok, is_token tok = true) toks → word_end tail →
  ∃ rest, Py.split (Py.join " " toks +:+ tail) = toks ++ rest.
Proof.
  intros Htoks [->|(c & r & -> & Hc)].
  - exists []. by rewrite append_nil_r, split_join, app_nil_r.
  - exists (Py.split r). by apply split_join_ws.
Qed.

Lemma get_version_ok h self out err :
  call_capture_output h [cc self; "--version"] = (0, out, err) →
  GCCLikeToolchain.get_version h self = Return out.
Proof.
  intros E. unfold GCCLikeToolchain.get_version. rewrite E.
  by rewrite decide_False by (by intros []).
Qed.
End version.

(** X1: the GCC class reads its version off the third word of the first
    line of the compiler's answer.  When that word is a dotted sequence
    that starts with printed integers, the tuple holds these integers, up
    to the first component that is not an integer. *)
Theorem gcc_get_version_tuple_parses (h : Host) (self : Toolchain)
    (w0 w1 : string) (more : list string) (ns : list Z) (junk : list string)
    (tail err : string) :
  call_capture_output h [cc self; "--version"]
    = (0, Py.join " " (w0 :: w1 :: Py.join "." ((Py.fmt_d <$> ns) ++ junk)
                          :: more) +:+ tail, err) →
  (Py.fmt_d <$> ns) ++ junk ≠ [] →
  Forall (λ w, is_token w = true) (w0 :: w1 :: more) →
  Forall (λ c, is_component c = true) junk →
  not_a_number_first junk →
  line_end tail →
  GCCToolchain.get_version_tuple h self = Return ns.
Proof.
  intros Hrun Hne Hwords Hjunk Hnan Htail.
  apply Forall_cons in Hwords as [Hw0 [Hw1 Hmore]%Forall_cons].
  pose proof (components_printed ns junk Hjunk) as Hcomps.
  pose proof (join_components_token _ Hne Hcomps) as Hv.
  assert (Forall (λ w, is_token w = true)
            (w0 :: w1 :: Py.join "." ((Py.fmt_d <$> ns) ++ junk) :: more))
    as Htoks by (by repeat constructor).
  unfold GCCToolchain.get_version_tuple, GCCToolchain.get_version.
  rewrite (get_version_ok _ _ _ _ Hrun). cbn [mbind result_bind].
  rewrite first_line by (by try apply no_char_token_line).
  rewrite split_join by done. cbn [lookup list_lookup].
  by rewrite split_on_components, leading_ints_printed.
Qed.

(** X2: the CUDA class reads the fifth and the sixth word of the fourth
    line.  The numbers of the fifth word come first; the sixth word is
    looked at only when every component of the fifth is an integer. *)
Theorem nvcc_get_version_tuple_parses (h : Host) (self : Toolchain)
    (l0 l1 l2 w0 w1 w2 w3 : string) (more : list string) (ns : list Z)
    (junk comps5 : list string) (tail err : string) :
  call_capture_output h [cc self; "--version"]
    = (0, l0 +:+ Py.newline +:+ l1 +:+ Py.newline +:+ l2 +:+ Py.newline
          +:+ Py.join " " (w0 :: w1 :: w2 :: w3
                           :: Py.join "." ((Py.fmt_d <$> ns) ++ junk)
                           :: Py.join "." comps5 :: more) +:+ tail, err) →
  no_char "010" l0 = true → no_char "010" l1 = true →
  no_char "010" l2 = true →
  (Py.fmt_d <$> ns) ++ junk ≠ [] → comps5 ≠ [] →
  Forall (λ w, is_token w = true) (w0 :: w1 :: w2 :: w3 :: more) →
  Forall (λ c, is_component c = true) junk →
  Forall (λ c, is_component c = true) comps5 →
  line_end tail →
  NVCCToolchain.get_version_tuple h self
    = Return (ns ++ GCCToolchain.leading_ints (junk ++ comps5))
  ∧ (junk ≠ [] → not_a_number_first junk →
     NVCCToolchain.get_version_tuple h self = Return ns).
Proof.
  intros Hrun Hl0 Hl1 Hl2 Hne Hne5 Hwords Hjunk Hc5 Htail.
  apply Forall_cons in Hwords as [Hw0 [Hw1 [Hw2 [Hw3 Hmore]%Forall_cons
    ]%Forall_cons]%Forall_cons].
  pose proof (components_printed ns junk Hjunk) as Hcomps.
  pose proof (join_components_token _ Hne Hcomps) as Hv4.
  pose proof (join_components_token _ Hne5 Hc5) as Hv5.
  set (v4 := Py.join "." ((Py.fmt_d <$> ns) ++ junk)) in *.
  set (v5 := Py.join "." comps5) in *.
  assert (Forall (λ w, is_token w = true)
            (w0 :: w1 :: w2 :: w3 :: v4 :: v5 :: more))
    as Htoks by (by repeat constructor).
  assert (NVCCToolchain.get_version_tuple h self
          = Return (ns ++ GCCToolchain.leading_ints (junk ++ comps5))) as E.
  { unfold NVCCToolchain.get_version_tuple, NVCCToolchain.get_version.
    rewrite (get_version_ok _ _ _ _ Hrun). cbn [mbind result_bind].
    unfold Py.newline. rewrite !append_cons, !append_nil_l.
    rewrite !split_on_head by done. cbn [lookup list_lookup].
    rewrite first_line by (by try apply no_char_token_line).
    rewrite split_join by done. cbn [lookup list_lookup].
    unfold v4, v5. rewrite !split_on_components by done.
    by rewrite <-(assoc_L (++)), leading_ints_app. }
  split; [done|].
  intros Hjne [->|(j & r & -> & Hj)]; [done|].
  rewrite E. simpl. by rewrite Hj, app_nil_r.
Qed.

(** X3: the ISPC class reads the fifth word of the whole answer, not of
    a line; what follows that word, on the same line or on later ones, is
    not looked at. *)
Theorem ispc_get_version_tuple_parses (h : Host) (self : Toolchain)
    (w0 w1 w2 w3 : string) (more : list string) (ns : list Z)
    (junk : list string) (tail err : string) :
  call_capture_output h [cc self; "--version"]
    = (0, Py.join " " (w0 :: w1 :: w2 :: w3
                       :: Py.join "." ((Py.fmt_d <$> ns) ++ junk) :: more)
          +:+ tail, err) →
  (Py.fmt_d <$> ns) ++ junk ≠ [] →
  Forall (λ w, is_token w = true) (w0 :: w1 :: w2 :: w3 :: more) →
  Forall (λ c, is_component c = true) junk →
  not_a_number_first junk →
  word_end tail →
  ISPCToolchain.get_version_tuple h self = Return ns.
Proof.
  intros Hrun Hne Hwords Hjunk Hnan Htail.
  apply Forall_cons in Hwords as [Hw0 [Hw1 [Hw2 [Hw3 Hmore]%Forall_cons
    ]%Forall_cons]%Forall_cons].
  pose proof (components_printed ns junk Hjunk) as Hcomps.
  pose proof (join_components_token _ Hne Hcomps) as Hv.
  assert (Forall (λ w, is_token w = true)
            (w0 :: w1 :: w2 :: w3
             :: Py.join "." ((Py.fmt_d <$> ns) ++ junk) :: more))
    as Htoks by (by repeat constructor).
  unfold ISPCToolchain.get_version_tuple, ISPCToolchain.get_version.
  rewrite (get_version_ok _ _ _ _ Hrun). cbn [mbind result_bind].
  destruct (words_of_line _ _ Htoks Htail) as [rest ->].
  cbn [app lookup list_lookup].
  by rewrite split_on_components, leading_ints_printed.
Qed.




(** ** The flags of a level *)

Section level_flags.
Implicit Types (h : Host) (self : Toolchain) (lvl : level)
  (l pfxs : list string) (P : string → bool).

Lemma filter_strip_nil P pfxs l :
  (∀ f, P f = true → has_prefix_in pfxs f = true) →
  List.filter P (strip pfxs l) = [].
Proof.
  intros HP. rewrite strip_filter.
  induction l as [|f l IH]; simpl; [done|].
  destruct (has_prefix_in pfxs f) eqn:E; simpl; [done|].
  destruct (P f) eqn:EP; [|done]. apply HP in EP. congruence.
Qed.

Lemma filter_strip_keep P pfxs l :
  (∀ f, P f = true → has_prefix_in pfxs f = false) →
  List.filter P (strip pfxs l) = List.filter P l.
Proof.
  intros HP. rewrite strip_filter.
  induction l as [|f l IH]; simpl; [done|].
  destruct (has_prefix_in pfxs f) eqn:E; simpl.
  - destruct (P f) eqn:EP; [|done]. apply HP in EP. congruence.
  - by rewrite IH.
Qed.

Lemma level_flag_stripped k f :
  k ≠ NVCC → level_flag f = true → has_prefix_in (stripped k) f = true.
Proof.
  unfold level_flag, has_prefix_in, stripped, GCCToolchain.stripped_prefixes,
    ISPCToolchain.stripped_prefixes.
  intros Hk [H|H]%orb_prop; destruct k; try done; cbn [existsb];
    rewrite H; by rewrite ?orb_true_r.
Qed.

Lemma arch_flag_stripped f :
  arch_flag f = true → has_prefix_in GCCToolchain.stripped_prefixes f = true.
Proof.
  unfold arch_flag, has_prefix_in, GCCToolchain.stripped_prefixes.
  intros [H|H]%orb_prop; cbn [existsb]; rewrite H; by rewrite ?orb_true_r.
Qed.

Lemma arch_flag_not_ispc_stripped f :
  arch_flag f = true → has_prefix_in ISPCToolchain.stripped_prefixes f = false.
Proof.
  intros H.
  assert (∃ r, f = String "-" (String "m" r)) as [r ->]; [|done].
  unfold arch_flag in H. destruct f as [|a [|b r]]; cbn [Py.startswith] in H.
  - done.
  - by rewrite !andb_false_r in H.
  - destruct (Ascii.eqb_spec "-" a) as [<-|]; [|done].
    destruct (Ascii.eqb_spec "m" b) as [<-|]; [|done]. by exists r.
Qed.

Lemma ndebug_not_in_strip k l :
  k ≠ NVCC → "-DNDEBUG" ∉ strip (stripped k) l.
Proof.
  intros Hk Hin. pose proof (strip_clean (stripped k) l) as Hc.
  eapply Forall_forall in Hc; [|done]. by destruct k.
Qed.
End level_flags.

(** X5: one policy per level.  Among the flags of a configuration that
    [with_optimization_level] returns, exactly one sets the optimization
    level or asks for debug symbols: "-g" for the level "debug", and "-O"
    with the number for a numeric level; and "-DNDEBUG" is among them
    exactly for a numeric level, whatever the receiver's flags were. *)
Theorem with_optimization_level_one_policy (h : Host) (self t' : Toolchain)
    (lvl : level) :
  with_optimization_level h self lvl = Return t' →
  List.filter level_flag (cflags t')
    = match lvl with
      | Debug => ["-g"]
      | Level n => ["-O" +:+ Py.fmt_d n]
      end
  ∧ ("-DNDEBUG" ∈ cflags t' ↔ lvl ≠ Debug).
Proof.
  intros Hret.
  assert (cls self ≠ NVCC) as Hk.
  { intros Hk. unfold with_optimization_level in Hret. by rewrite Hk in Hret. }
  assert (∃ ofl, cflags t' = strip (stripped (cls self)) (cflags self) ++ ofl
                 ∧ (lvl = Debug ∧ ofl = ["-g"]
                    ∨ ∃ n, lvl = Level n
                           ∧ (ofl = ["-O" +:+ Py.fmt_d n; "-DNDEBUG"]
                              ∨ ofl = ["-O" +:+ Py.fmt_d n; "-DNDEBUG";
                                       "-march=native"; "-mtune=native"])))
    as (ofl & -> & Hofl).
  { unfold with_optimization_level in Hret.
    destruct (cls self); [| done |].
    - rewrite gcc_with_optimization_level_eq in Hret.
      destruct (GCCToolchain.oflags h self lvl) as [ofl|] eqn:E; [|done].
      apply (inj Return) in Hret as <-. exists ofl. split; [done|].
      destruct lvl as [|n]; simpl in E.
      + left. by injection E as <-.
      + right. exists n. split; [done|].
        destruct (2 <=? n); [|left; by injection E as <-].
        destruct (GCCToolchain.get_version_tuple h self); [|done]. simpl in E.
        destruct (Py.tuple_ge _ _); injection E as <-; auto.
    - rewrite ispc_with_optimization_level_eq in Hret.
      apply (inj Return) in Hret as <-. eexists. split; [done|].
      destruct lvl as [|n]; [by left|]. right. exists n. auto. }
  rewrite List.filter_app.
  rewrite filter_strip_nil by (by intros f; apply level_flag_stripped).
  rewrite elem_of_app.
  pose proof (ndebug_not_in_strip (cls self) (cflags self) Hk) as Hnd.
  destruct Hofl as [[-> ->]|(n & -> & [->| ->])].
  - split; [done|]. split; [|done]. intros [?|Hin]; [done|].
    by apply list_elem_of_singleton in Hin.
  - split; [done|]. split; [done|]. intros _. right.
    apply elem_of_cons. right. by apply elem_of_cons; left.
  - split; [done|]. split; [done|]. intros _. right.
    apply elem_of_cons. right. by apply elem_of_cons; left.
Qed.

(** X6: the native tuning flags of the GCC class.  Every "-march" and
    "-mtune" flag of the receiver is dropped at every level, and
    "-march=native" and "-mtune=native" are added exactly at a numeric
    level of 2 or more with a compiler of version 4.3 or later.  Below
    level 2 and for "debug" the compiler is not run at all.  The ISPC
    class keeps the receiver's tuning flags as they are. *)
Theorem with_optimization_level_arch_flags (h : Host) (self : Toolchain)
    (lvl : level) :
  (∀ t', GCCToolchain.with_optimization_level h self lvl = Return t' →
     List.filter arch_flag (cflags t')
     = if arch_gate h self lvl then ["-march=native"; "-mtune=native"]
       else [])
  ∧ (lvl = Debug ∨ (∃ n, lvl = Level n ∧ n < 2) →
     ∀ h', GCCToolchain.with_optimization_level h' self lvl
           = GCCToolchain.with_optimization_level h self lvl)
  ∧ (∀ t', ISPCToolchain.with_optimization_level h self lvl = Return t' →
       List.filter arch_flag (cflags t')
       = List.filter arch_flag (cflags self)).
Proof.
  split_and!.
  - intros t'. rewrite gcc_with_optimization_level_eq.
    destruct (GCCToolchain.oflags h self lvl) as [ofl|] eqn:E; [|done].
    intros <-%(inj Return). rewrite cflags_copy, List.filter_app.
    rewrite filter_strip_nil by apply arch_flag_stripped.
    destruct lvl as [|n]; simpl in *.
    + by injection E as <-.
    + destruct (2 <=? n); [|by injection E as <-].
      destruct (GCCToolchain.get_version_tuple h self); [|done]. simpl in *.
      destruct (Py.tuple_ge _ _); by injection E as <-.
  - intros Hlow h'. rewrite !gcc_with_optimization_level_eq.
    destruct Hlow as [->|(n & -> & Hn)]; [done|]. simpl.
    apply Z.leb_gt in Hn. by rewrite Hn.
  - intros t'. rewrite ispc_with_optimization_level_eq.
    intros <-%(inj Return). rewrite cflags_copy, List.filter_app.
    rewrite filter_strip_keep by apply arch_flag_not_ispc_stripped.
    destruct lvl; simpl; by rewrite app_nil_r.
Qed.

(** X7: [enable_debugging] leaves no "-O" flag, keeps every other flag,
    ends the list with "-g" and changes no other field; it does not look
    for a "-g" that is already there, so every further call appends one
    more. *)
Theorem enable_debugging_appends (self : Toolchain) :
  let self' := GCCLikeToolchain.enable_debugging self in
  Forall (λ f, Py.startswith f "-O" = false) (cflags self')
  ∧ (∀ f, f ∈ cflags self → Py.startswith f "-O" = false → f ∈ cflags self')
  ∧ last (cflags self') = Some "-g"
  ∧ self' = copy_cflags self (cflags self')
  ∧ cflags (GCCLikeToolchain.enable_debugging self') = cflags self' ++ ["-g"].
Proof.
  set (keep := λ f : string, negb (Py.startswith f "-O")).
  assert (∀ l, Forall (λ f, Py.startswith f "-O" = false) (List.filter keep l))
    as Hclean.
  { intros l. apply Forall_forall. intros f Hf.
    apply list_elem_of_In, List.filter_In in Hf as [_ Hf].
    unfold keep in Hf. by destruct (Py.startswith f "-O"). }
  assert (∀ l, Forall (λ f, Py.startswith f "-O" = false) l →
               List.filter keep l = l) as Hid.
  { induction 1 as [|f l Hf _ IH]; simpl; [done|].
    unfold keep at 1. by rewrite Hf, IH. }
  simpl. split_and!.
  - apply Forall_app. split; [apply Hclean|by repeat constructor].
  - intros f Hf Hno. apply elem_of_app. left.
    apply list_elem_of_In, List.filter_In. split; [by apply list_elem_of_In|].
    unfold keep. by rewrite Hno.
  - by rewrite last_snoc.
  - done.
  - fold keep. rewrite List.filter_app. simpl.
    by rewrite (Hid _ (Hclean _)).
Qed.

(** ** Build steps that succeed *)

Section build_steps.
Implicit Types (h : Host) (self : Toolchain) (con : Console).

Lemma run_cc_outcome h cc_cmdline debug con :
  let r := GCCLikeToolchain.run_cc h cc_cmdline debug con in
  (r.2 = Return () ↔ call h cc_cmdline = 0)
  ∧ sys_stdout r.1 = sys_stdout con ++ echo debug cc_cmdline
  ∧ (r.2 = Return () → sys_stderr r.1 = sys_stderr con).
Proof.
  unfold GCCLikeToolchain.run_cc, echo.
  destruct (decide (call h cc_cmdline ≠ 0)) as [Hne|Heq%dec_stable];
    destruct debug; simpl; rewrite ?app_nil_r; split_and!; try done.
Qed.
End build_steps.

(** X8: a build or link step of the shared code returns normally exactly
    when its command exits with code 0.  Either way it writes to standard
    output the command line when [debug] is set and nothing otherwise,
    and a step that returns normally writes nothing to standard error.
    (The CUDA class has its own [build_object], and the ISPC class its
    own [build_extension].) *)
Theorem build_step_returns_iff_exit_zero (h : Host) (self : Toolchain)
    (ext_file : string) (files : list string) (debug : bool) (con : Console)
    (cmd : list string) (object : bool)
    (step : Host → Toolchain → string → list string → bool → Console
            → Console * result unit) :
  _cmdline self files object = Return cmd →
  (object = true ∧ step = build_object ∧ cls self ≠ NVCC)
  ∨ (object = false ∧ step = build_extension ∧ cls self ≠ ISPC)
  ∨ (object = false ∧ step = link_extension) →
  let r := step h self ext_file files debug con in
  (r.2 = Return () ↔ call h (cmd ++ ["-o"; ext_file]) = 0)
  ∧ sys_stdout r.1 = sys_stdout con ++ echo debug (cmd ++ ["-o"; ext_file])
  ∧ (r.2 = Return () → sys_stderr r.1 = sys_stderr con).
Proof.
  intros Hcmd Hstep.
  assert (step h self ext_file files debug con
          = GCCLikeToolchain.run_cc h (cmd ++ ["-o"; ext_file]) debug con)
    as ->; [|apply run_cc_outcome].
  unfold _cmdline in Hcmd.
  destruct Hstep as [(-> & -> & Hk)|[(-> & -> & Hk)|(-> & ->)]].
  - unfold build_object. destruct (cls self); [|done|].
    + unfold GCCToolchain.build_object, GCCLikeToolchain.build_object.
      by rewrite Hcmd.
    + unfold ISPCToolchain.build_object, GCCLikeToolchain.build_object.
      by rewrite Hcmd.
  - unfold build_extension. destruct (cls self); [| |done].
    + unfold GCCToolchain.build_extension, GCCLikeToolchain.build_extension.
      by rewrite Hcmd.
    + unfold NVCCToolchain.build_extension, GCCLikeToolchain.build_extension.
      by rewrite Hcmd.
  - unfold link_extension. destruct (cls self).
    + unfold GCCToolchain.link_extension, GCCLikeToolchain.link_extension.
      by rewrite Hcmd.
    + unfold NVCCToolchain.link_extension, GCCLikeToolchain.link_extension.
      by rewrite Hcmd.
    + unfold ISPCToolchain.link_extension, GCCLikeToolchain.link_extension.
      by rewrite Hcmd.
Qed.


(** ** File names and their extensions *)

Section extensions.
Implicit Types (s stem sfx ext f : string) (c : ascii) (files : list string).

Lemma startswith_spec s pfx :
  Py.startswith s pfx = true ↔ ∃ r, s = pfx +:+ r.
Proof.
  revert s. induction pfx as [|a pfx IH]; intros s; simpl.
  - split; [by exists s|done].
  - destruct s as [|b s]; [split; [done|by intros [r ?]]|].
    rewrite andb_true_iff, IH. split.
    + intros [->%Ascii.eqb_eq [r ->]]. by exists r.
    + intros [r [= -> ->]]. split; [apply Ascii.eqb_refl|by exists r].
Qed.

Lemma rev_app_append s : ∀ acc, String.rev_app s acc = String.rev s +:+ acc.
Proof.
  unfold String.rev. induction s as [|a s IH]; intros acc; [done|].
  simpl. rewrite (IH (String a acc)), (IH (String a "")).
  by rewrite append_assoc.
Qed.

Lemma rev_app_app s1 s2 : ∀ acc,
  String.rev_app (s1 +:+ s2) acc = String.rev_app s2 (String.rev_app s1 acc).
Proof.
  induction s1 as [|a s1 IH]; intros acc; [done|].
  rewrite append_cons. simpl. apply IH.
Qed.

Lemma rev_append s1 s2 :
  String.rev (s1 +:+ s2) = String.rev s2 +:+ String.rev s1.
Proof.
  unfold String.rev at 1. rewrite rev_app_app.
  by rewrite rev_app_append.
Qed.

Lemma rev_involutive s : String.rev (String.rev s) = s.
Proof. apply rev_rev_app. Qed.

Lemma endswith_spec s sfx :
  Py.endswith s sfx = true ↔ ∃ stem, s = stem +:+ sfx.
Proof.
  unfold Py.endswith. rewrite startswith_spec. split.
  - intros [r Hr]. exists (String.rev r).
    by rewrite <-(rev_involutive s), Hr, rev_append, rev_involutive.
  - intros [stem ->]. exists (String.rev stem). apply rev_append.
Qed.

Lemma after_last_none c ext :
  no_char c ext = true → Py.after_last c ext = None.
Proof.
  induction ext as [|a ext IH]; [done|].
  rewrite no_char_cons. intros [Ha Hext]%andb_prop. simpl.
  rewrite IH by done. apply negb_true_iff in Ha. by rewrite Ha.
Qed.

Lemma after_last_append c stem ext :
  no_char c ext = true →
  Py.after_last c (stem +:+ String c ext) = Some ext.
Proof.
  intros Hext. induction stem as [|a stem IH].
  - simpl. by rewrite after_last_none, Ascii.eqb_refl.
  - rewrite append_cons. simpl. by rewrite IH.
Qed.

Lemma endswith_dot_ext f ext :
  no_char "." ext = true → Py.endswith f (String "." ext) = true →
  Py.after_last "." f = Some ext ∧ Py.endswith f ext = true.
Proof.
  intros Hext [stem ->]%endswith_spec. split.
  - by apply after_last_append.
  - apply endswith_spec. exists (stem +:+ "."). by rewrite append_assoc.
Qed.

Lemma ispc_not_cpp f :
  Py.endswith f ".ispc" = true → Py.endswith f ".cpp" = false.
Proof.
  unfold Py.endswith.
  change (String.rev ".ispc") with "cpsi.".
  change (String.rev ".cpp") with "ppc.".
  destruct (String.rev f) as [|a r]; [done|].
  cbn [Py.startswith].
  destruct (Ascii.eqb_spec "c" a) as [<-|]; [|done]. by intros _.
Qed.

Lemma check_extensions_same ext files :
  no_char "." ext = true → files ≠ [] →
  Forall (λ f, Py.endswith f (String "." ext) = true) files →
  ISPCToolchain.check_extensions files = Return ().
Proof.
  intros Hext Hne Hall. destruct files as [|f0 rest]; [done|].
  apply check_extensions_passes. exists ext.
  pose proof Hall as [Hf0 _]%Forall_cons.
  split; [by apply endswith_dot_ext|].
  apply forallb_forall. intros f Hf%list_elem_of_In.
  eapply Forall_forall in Hall; [|done]. by apply endswith_dot_ext.
Qed.
End extensions.

(** X10: the ISPC class never rejects a list of file names with one
    common extension.  For a non-empty list whose names all end in a dot
    and the same dot-free extension, [_cmdline] returns a command line:
    the tool [get_cc] picks, then the ISPC flags when that tool is the
    ISPC compiler and the C++ flags otherwise, with "-c" added for an
    object. *)
Theorem ispc_cmdline_same_extension (self : Toolchain) (files : list string)
    (obj : bool) (ext : string) :
  no_char "." ext = true → files ≠ [] →
  Forall (λ f, Py.endswith f (String "." ext) = true) files →
  ISPCToolchain._cmdline self files obj
  = Return ([ISPCToolchain.get_cc self files obj]
            ++ (if decide (ISPCToolchain.get_cc self files obj = cc self)
                then cflags self
                else cppflags self ++ (if obj then ["-c"] else []))
            ++ (if obj then [] else ldflags self)
            ++ flag "-D" (defines self) ++ flag "-U" (undefines self)
            ++ flag "-I" (include_dirs self) ++ files
            ++ (if obj then []
                else flag "-L" (library_dirs self)
                     ++ (ISPCToolchain.link_flag <$> libraries self))).
Proof.
  intros Hext Hne Hall. unfold ISPCToolchain._cmdline.
  destruct (decide (ISPCToolchain.get_cc self files obj = cc self)) as [E|E].
  - by rewrite decide_False by (by intros ?).
  - rewrite decide_True by done.
    by rewrite (check_extensions_same ext files).
Qed.

(** X11: the tool the ISPC class runs.  With no file it is the ISPC
    compiler.  For names that all end in ".ispc" it is the ISPC compiler
    when an object is built and the linker otherwise; for names that all
    end in ".cpp" it is the C++ compiler in both modes; and as soon as one
    name does not end in ".ispc" and one does not end in ".cpp" it is the
    linker. *)
Theorem ispc_get_cc_choice (self : Toolchain) (files : list string)
    (obj : bool) :
  (files = [] → ISPCToolchain.get_cc self files obj = cc self)
  ∧ (files ≠ [] → Forall (λ f, Py.endswith f ".ispc" = true) files →
     ISPCToolchain.get_cc self files true = cc self
     ∧ ISPCToolchain.get_cc self files false = ld self)
  ∧ (files ≠ [] → Forall (λ f, Py.endswith f ".cpp" = true) files →
     ISPCToolchain.get_cc self files obj = cpp self)
  ∧ (Exists (λ f, Py.endswith f ".ispc" = false) files →
     Exists (λ f, Py.endswith f ".cpp" = false) files →
     ISPCToolchain.get_cc self files obj = ld self).
Proof.
  assert (∀ sfx, Forall (λ f, Py.endswith f sfx = true) files →
                 forallb (λ f, Py.endswith f sfx) files = true) as Hall.
  { intros sfx H. apply forallb_forall. intros f Hf%list_elem_of_In.
    by eapply Forall_forall in H. }
  assert (∀ sfx, Exists (λ f, Py.endswith f sfx = false) files →
                 forallb (λ f, Py.endswith f sfx) files = false) as Hex.
  { intros sfx (f & Hf & Hno)%Exists_exists.
    apply not_true_is_false. intros H.
    eapply forallb_forall in H; [|by apply list_elem_of_In]. congruence. }
  assert (files ≠ [] → bool_decide (files = []) = false) as Hne
    by (by intros ?; apply bool_decide_eq_false).
  unfold ISPCToolchain.get_cc. split_and!.
  - intros ->. by destruct obj.
  - intros Hf Hispc. rewrite (Hall _ Hispc), (Hne Hf). split; [done|].
    simpl. rewrite Hex; [done|].
    destruct files as [|f0 rest]; [done|]. apply Exists_cons_hd.
    apply ispc_not_cpp. by apply Forall_cons in Hispc as [? _].
  - intros Hf Hcpp. rewrite (Hall _ Hcpp), (Hne Hf). rewrite Hex.
    + by rewrite andb_false_r.
    + destruct files as [|f0 rest]; [done|]. apply Exists_cons_hd.
      apply Forall_cons in Hcpp as [Hcpp _].
      destruct (Py.endswith f0 ".ispc") eqn:E; [|done].
      apply ispc_not_cpp in E. congruence.
  - intros Hispc Hcpp. rewrite (Hex _ Hispc), (Hex _ Hcpp), andb_false_r.
    rewrite Hne; [done|]. intros ->. by apply Exists_nil in Hispc.
Qed.


(** ** Guessing the keyword arguments *)

Section configuration.
Import Configuration.
Implicit Types (make_vars : gmap string string) (kw : kwargs)
  (l c d u : list string) (f pfx : string).

Lemma undefine_not_define f :
  Py.startswith f "-U" = true → Py.startswith f "-D" = false.
Proof. intros (r & ->)%startswith_spec. done. Qed.

Lemma slice_from_prefix pfx r :
  Py.slice_from (String.length pfx) (pfx +:+ r) = r.
Proof. induction pfx as [|a pfx IH]; [by destruct r|]. exact IH. Qed.

(** Putting the prefix back in front of what [cflag[2:]] kept. *)
Lemma flag_slice pfx l :
  String.length pfx = 2%nat →
  flag pfx (Py.slice_from 2 <$> List.filter (λ f, Py.startswith f pfx) l)
  = List.filter (λ f, Py.startswith f pfx) l.
Proof.
  intros Hlen. unfold flag. induction l as [|f l IH]; [done|].
  cbn [List.filter]. destruct (Py.startswith f pfx) eqn:E; [|done].
  rewrite !fmap_cons, IH. f_equal.
  apply startswith_spec in E as [r ->].
  by rewrite <-Hlen, slice_from_prefix.
Qed.

Lemma sort_cflag_fold l : ∀ c d u,
  fold_left sort_cflag l (c, d, u)
  = (c ++ List.filter plain_flag l,
     d ++ (Py.slice_from 2 <$> List.filter (λ f, Py.startswith f "-D") l),
     u ++ (Py.slice_from 2 <$> List.filter (λ f, Py.startswith f "-U") l)).
Proof.
  induction l as [|f l IH]; intros c d u.
  - by rewrite !app_nil_r.
  - cbn [fold_left List.filter]. unfold sort_cflag at 2.
    replace (plain_flag f)
      with (negb (Py.startswith f "-D") && negb (Py.startswith f "-U"))
      by done.
    destruct (Py.startswith f "-D") eqn:ED.
    + destruct (Py.startswith f "-U") eqn:EU.
      { apply undefine_not_define in EU. congruence. }
      rewrite IH. cbn [negb andb]. by rewrite fmap_cons, <-(assoc_L (++)).
    + destruct (Py.startswith f "-U") eqn:EU; rewrite IH; cbn [negb andb];
        by rewrite ?fmap_cons, <-?(assoc_L (++)).
Qed.

Lemma sort_lib_fold l : ∀ libs c,
  fold_left sort_lib l (libs, c)
  = (libs ++ (Py.slice_from 2 <$> List.filter (λ f, Py.startswith f "-l") l),
     c ++ List.filter (λ f, negb (Py.startswith f "-l")) l).
Proof.
  induction l as [|f l IH]; intros libs c.
  - by rewrite !app_nil_r.
  - cbn [fold_left List.filter]. unfold sort_lib at 2, strip_prefix.
    destruct (Py.startswith f "-l") eqn:E; rewrite IH; cbn [negb];
      by rewrite ?fmap_cons, <-?(assoc_L (++)).
Qed.

Lemma filter_partition (p : string → bool) l :
  List.filter p l ++ List.filter (λ f, negb (p f)) l ≡ₚ l.
Proof.
  induction l as [|f l IH]; [done|]. cbn [List.filter].
  destruct (p f); cbn [negb].
  - by rewrite <-app_comm_cons, IH.
  - by rewrite <-Permutation_middle, IH.
Qed.

Lemma filter_plain l :
  List.filter plain_flag l
  = List.filter (λ f, negb (Py.startswith f "-U"))
      (List.filter (λ f, negb (Py.startswith f "-D")) l).
Proof.
  induction l as [|f l IH]; [done|]. cbn [List.filter].
  replace (plain_flag f)
    with (negb (Py.startswith f "-D") && negb (Py.startswith f "-U"))
    by done.
  destruct (Py.startswith f "-D") eqn:ED; cbn [negb andb List.filter];
    [done|].
  destruct (Py.startswith f "-U") eqn:EU; cbn [negb]; by rewrite IH.
Qed.

Lemma filter_undefine l :
  List.filter (λ f, Py.startswith f "-U") l
  = List.filter (λ f, Py.startswith f "-U")
      (List.filter (λ f, negb (Py.startswith f "-D")) l).
Proof.
  induction l as [|f l IH]; [done|]. cbn [List.filter].
  destruct (Py.startswith f "-U") eqn:EU.
  - rewrite (undefine_not_define _ EU). cbn [negb List.filter].
    by rewrite EU, IH.
  - destruct (Py.startswith f "-D") eqn:ED; cbn [negb List.filter];
      by rewrite ?EU, IH.
Qed.

(** The defines, the undefines and the other words are the words. *)
Lemma sorted_tokens l :
  List.filter (λ f, Py.startswith f "-D") l
  ++ List.filter (λ f, Py.startswith f "-U") l
  ++ List.filter plain_flag l ≡ₚ l.
Proof.
  rewrite filter_plain, filter_undefine.
  rewrite (filter_partition (λ f, Py.startswith f "-U")).
  apply filter_partition.
Qed.

Lemma var_lookup make_vars key v :
  make_vars !! key = Some v → var make_vars key = v.
Proof. unfold var. by intros ->. Qed.

Lemma required_present make_vars :
  Forall (λ k, is_Some (make_vars !! k)) required_vars ↔
  ∀ k, k ∈ required_vars → make_vars !! k = Some (var make_vars k).
Proof.
  rewrite Forall_forall. split; intros H k Hk.
  - destruct (H k Hk) as [v Hv]. by rewrite (var_lookup _ _ _ Hv).
  - by eexists; apply H.
Qed.

(** What the function returns, and when. *)
Lemma guess_kwargs_spec make_vars kw :
  _guess_toolchain_kwargs_from_python_config make_vars = Guessed kw ↔
  Forall (λ k, is_Some (make_vars !! k)) required_vars
  ∧ ∃ modobj0 suffix cc0 ld0,
      Py.split (var make_vars "MODOBJS") !! 0%nat = Some modobj0
      ∧ Py.split_on "." modobj0 !! 1%nat = Some suffix
      ∧ cc_cmdline make_vars !! 0%nat = Some cc0
      ∧ Py.split (var make_vars "LDSHARED") !! 0%nat = Some ld0
      ∧ kw = {| kw_cc := cc0;
                kw_ld := Some ld0;
                kw_cflags :=
                  List.filter plain_flag (drop 1 (cc_cmdline make_vars))
                  ++ List.filter (λ f, negb (Py.startswith f "-l"))
                       (Py.split (var make_vars "LIBS"));
                kw_ldflags :=
                  drop 1 (Py.split (var make_vars "LDSHARED"))
                  ++ Py.split (var make_vars "LINKFORSHARED");
                kw_libraries :=
                  Py.slice_from 2
                  <$> List.filter (λ f, Py.startswith f "-l")
                        (Py.split (var make_vars "LIBS"));
                kw_include_dirs := [var make_vars "INCLUDEPY"];
                kw_library_dirs := [var make_vars "LIBDIR"];
                kw_so_ext := default ".so" (make_vars !! "SO");
                kw_o_ext := "." +:+ suffix;
                kw_defines :=
                  Py.slice_from 2
                  <$> List.filter (λ f, Py.startswith f "-D")
                        (drop 1 (cc_cmdline make_vars));
                kw_undefines :=
                  Py.slice_from 2
                  <$> List.filter (λ f, Py.startswith f "-U")
                        (drop 1 (cc_cmdline make_vars)) |}.
Proof.
  unfold _guess_toolchain_kwargs_from_python_config, cc_cmdline, getitem,
    index.
  split.
  - intros H.
    destruct (make_vars !! "CXX") as [cxx|] eqn:E1; cbn [mbind guess_bind] in H; [|done].
    destruct (make_vars !! "CFLAGS") as [cfl|] eqn:E2; cbn [mbind guess_bind] in H; [|done].
    destruct (make_vars !! "CFLAGSFORSHARED") as [cfs|] eqn:E3; cbn [mbind guess_bind] in H; [|done].
    destruct (make_vars !! "MODOBJS") as [modobjs|] eqn:E4; cbn [mbind guess_bind] in H; [|done].
    cbn [mbind guess_bind] in H.
    destruct (Py.split modobjs !! 0%nat) as [modobj0|] eqn:E5; cbn [mbind guess_bind] in H; [|done].
    destruct (Py.split_on "." modobj0 !! 1%nat) as [suffix|] eqn:E6; cbn [mbind guess_bind] in H; [|done].
    cbn [mbind guess_bind] in H. rewrite sort_cflag_fold in H.
    destruct (make_vars !! "LIBS") as [libs|] eqn:E7; cbn [mbind guess_bind] in H; [|done].
    cbn [mbind guess_bind] in H. rewrite sort_lib_fold in H.
    destruct ((Py.split cxx ++ Py.split cfl ++ Py.split cfs) !! 0%nat)
      as [cc0|] eqn:E8; cbn [mbind guess_bind] in H; [|done].
    destruct (make_vars !! "LDSHARED") as [ldshared|] eqn:E9; cbn [mbind guess_bind] in H; [|done].
    cbn [mbind guess_bind] in H.
    destruct (Py.split ldshared !! 0%nat) as [ld0|] eqn:E10; cbn [mbind guess_bind] in H; [|done].
    destruct (make_vars !! "LINKFORSHARED") as [lfs|] eqn:E11; cbn [mbind guess_bind] in H; [|done].
    destruct (make_vars !! "INCLUDEPY") as [inc|] eqn:E12; cbn [mbind guess_bind] in H; [|done].
    destruct (make_vars !! "LIBDIR") as [libdir|] eqn:E13; cbn [mbind guess_bind] in H; [|done].
    cbn [mbind guess_bind mret guess_ret] in H. injection H as <-.
    split.
    { unfold required_vars. repeat constructor; by eexists. }
    unfold var. rewrite E1, E2, E3, E4, E7, E9, E11, E12, E13.
    cbn [default from_option id]. by exists modobj0, suffix, cc0, ld0.
  - intros [Hreq (modobj0 & suffix & cc0 & ld0 & E5 & E6 & E8 & E10 & ->)].
    pose proof (proj1 (required_present make_vars) Hreq) as Hv.
    rewrite (Hv "CXX"), (Hv "CFLAGS"), (Hv "CFLAGSFORSHARED"),
      (Hv "MODOBJS"), (Hv "LIBS"), (Hv "LDSHARED"), (Hv "LINKFORSHARED"),
      (Hv "INCLUDEPY"), (Hv "LIBDIR") by compute_done.
    cbn [mbind guess_bind]. rewrite E5. cbn [mbind guess_bind]. rewrite E6.
    cbn [mbind guess_bind]. rewrite sort_cflag_fold, sort_lib_fold.
    unfold cc_cmdline in E8. rewrite E8. cbn [mbind guess_bind].
    rewrite E10. done.
Qed.
End configuration.

(** X13: guessing the keyword arguments loses no word of the makefile.
    The compiler, the defines with "-D" put back, the undefines with "-U"
    put back, the compile flags and the libraries with "-l" put back are,
    up to order, the words of [CXX], [CFLAGS], [CFLAGSFORSHARED] and
    [LIBS].  The compile flags keep their order, the words of [LIBS] that
    are not libraries following the others; and the linker with its flags
    is, in order, the words of [LDSHARED] and [LINKFORSHARED]. *)
Theorem guess_kwargs_keeps_every_word (make_vars : gmap string string)
    (kw : Configuration.kwargs) :
  Configuration._guess_toolchain_kwargs_from_python_config make_vars
    = Configuration.Guessed kw →
  Configuration.kw_cc kw
    :: flag "-D" (Configuration.kw_defines kw)
       ++ flag "-U" (Configuration.kw_undefines kw)
       ++ Configuration.kw_cflags kw
       ++ flag "-l" (Configuration.kw_libraries kw)
    ≡ₚ cc_cmdline make_vars ++ Py.split (var make_vars "LIBS")
  ∧ Configuration.kw_cflags kw
    = List.filter plain_flag (drop 1 (cc_cmdline make_vars))
      ++ List.filter (λ f, negb (Py.startswith f "-l"))
           (Py.split (var make_vars "LIBS"))
  ∧ ∃ ld0, Configuration.kw_ld kw = Some ld0
           ∧ ld0 :: Configuration.kw_ldflags kw
             = Py.split (var make_vars "LDSHARED")
               ++ Py.split (var make_vars "LINKFORSHARED").
Proof.
  intros (_ & modobj0 & suffix & cc0 & ld0 & _ & _ & Hcc & Hld & ->)
    %guess_kwargs_spec.
  cbn [Configuration.kw_cc Configuration.kw_defines Configuration.kw_undefines
       Configuration.kw_cflags Configuration.kw_libraries
       Configuration.kw_ld Configuration.kw_ldflags].
  split_and!; [|done|].
  - rewrite !flag_slice by done.
    destruct (cc_cmdline make_vars) as [|c0 tokens]; [done|].
    injection Hcc as ->. change (drop 1 (cc0 :: tokens)) with tokens.
    rewrite <-app_comm_cons. apply Permutation_cons; [done|].
    set (libs := Py.split (var make_vars "LIBS")).
    set (lib := λ f : string, Py.startswith f "-l").
    trans ((List.filter (λ f, Py.startswith f "-D") tokens
            ++ List.filter (λ f, Py.startswith f "-U") tokens
            ++ List.filter plain_flag tokens)
           ++ List.filter lib libs
           ++ List.filter (λ f, negb (lib f)) libs).
    + rewrite <-!(assoc_L (++)). do 3 apply Permutation_app_head.
      apply Permutation_app_comm.
    + apply Permutation_app; [apply sorted_tokens|apply filter_partition].
  - exists ld0. split; [done|].
    destruct (Py.split (var make_vars "LDSHARED")) as [|l0 ldflags]; [done|].
    by injection Hld as ->.
Qed.

(** X14: when the keyword arguments can be guessed.  The function
    returns exactly when the nine variables it subscripts are set, the
    first word of [MODOBJS] exists and has a dot, and [LDSHARED] and the
    compiler command each have a word; [SO] may be missing, and then the
    extension is ".so".  Otherwise it raises [KeyError] for a variable
    that is not set, or [IndexError].  The object suffix is a dot and the
    text between the first and the second dot of the first word of
    [MODOBJS]. *)
Theorem guess_kwargs_succeeds_iff (make_vars : gmap string string) :
  ((∃ kw, Configuration._guess_toolchain_kwargs_from_python_config make_vars
          = Configuration.Guessed kw)
   ↔ Forall (λ k, is_Some (make_vars !! k)) required_vars
     ∧ (∃ modobj0 suffix,
          Py.split (var make_vars "MODOBJS") !! 0%nat = Some modobj0
          ∧ Py.split_on "." modobj0 !! 1%nat = Some suffix)
     ∧ cc_cmdline make_vars ≠ []
     ∧ Py.split (var make_vars "LDSHARED") ≠ [])
  ∧ (∀ e, Configuration._guess_toolchain_kwargs_from_python_config make_vars
          = Configuration.GuessRaise e →
       (∃ k, e = Configuration.KeyError k ∧ k ∈ required_vars
             ∧ make_vars !! k = None)
       ∨ e = Configuration.Builtin IndexError)
  ∧ (∀ kw, Configuration._guess_toolchain_kwargs_from_python_config make_vars
           = Configuration.Guessed kw →
       Configuration.kw_so_ext kw = default ".so" (make_vars !! "SO")
       ∧ Configuration.kw_include_dirs kw = [var make_vars "INCLUDEPY"]
       ∧ Configuration.kw_library_dirs kw = [var make_vars "LIBDIR"]
       ∧ ∃ modobj0 stem suffix rest more,
           Py.split (var make_vars "MODOBJS") = modobj0 :: rest
           ∧ Py.split_on "." modobj0 = stem :: suffix :: more
           ∧ Configuration.kw_o_ext kw = "." +:+ suffix).
Proof.
  split_and!.
  - split.
    + intros [kw (Hreq & modobj0 & suffix & cc0 & ld0 & E1 & E2 & Hcc & Hld
                  & _)%guess_kwargs_spec].
      split_and!; [done|by eauto|by intros E; rewrite E in Hcc
                  |by intros E; rewrite E in Hld].
    + intros (Hreq & (modobj0 & suffix & E1 & E2) & Hcc & Hld).
      destruct (cc_cmdline make_vars) as [|cc0 tokens] eqn:Ecc; [done|].
      destruct (Py.split (var make_vars "LDSHARED")) as [|ld0 ldflags] eqn:Eld;
        [done|].
      eexists. apply guess_kwargs_spec. split; [done|].
      exists modobj0, suffix, cc0, ld0. rewrite Ecc, Eld. by split_and!.
  - intros e H.
    unfold Configuration._guess_toolchain_kwargs_from_python_config,
      Configuration.getitem, Configuration.index in H.
    repeat
      match type of H with
      | context [make_vars !! ?k] =>
          lazymatch k with
          | "SO" => fail
          | _ =>
              destruct (make_vars !! k) eqn:?;
              cbn [mbind Configuration.guess_bind] in H;
              [|injection H as <-; left; exists k;
                split_and!; [done|compute_done|done]]
          end
      | context [@lookup nat string (list string) _ ?i ?l] =>
          destruct (@lookup nat string (list string) _ i l) eqn:?;
          cbn [mbind Configuration.guess_bind] in H;
          [|injection H as <-; by right]
      | context [fold_left Configuration.sort_cflag ?l ?a] =>
          destruct (fold_left Configuration.sort_cflag l a) as [[? ?] ?];
          cbn [mbind Configuration.guess_bind] in H
      | context [fold_left Configuration.sort_lib ?l ?a] =>
          destruct (fold_left Configuration.sort_lib l a) as [? ?];
          cbn [mbind Configuration.guess_bind] in H
      end.
    done.
  - intros kw (_ & modobj0 & suffix & cc0 & ld0 & E1 & E2 & _ & _ & ->)
      %guess_kwargs_spec.
    split_and!; [done..|].
    destruct (Py.split (var make_vars "MODOBJS")) as [|m0 rest]; [done|].
    injection E1 as ->.
    destruct (Py.split_on "." modobj0) as [|stem [|sfx more]] eqn:Es;
      [done..|].
    injection E2 as ->. exists modobj0, stem, suffix, rest, more.
    by split_and!.
Qed.

(** ** Guessing a toolchain *)

Section guessing.
Import Configuration.
Implicit Types (h : Host) (make_vars : gmap string string) (kw : kwargs)
  (l : list string) (x y : string).

Lemma remove_first_absent x l : x ∉ l → Py.remove_first x l = l.
Proof.
  induction l as [|y l IH]; [done|]. intros [Hy Hl]%not_elem_of_cons.
  simpl. rewrite decide_False by done. by rewrite IH.
Qed.

Lemma count_cons x y l :
  count x (y :: l) = ((if bool_decide (y = x) then 1 else 0) + count x l)%nat.
Proof. unfold count. simpl. by destruct (bool_decide (y = x)). Qed.

Lemma count_app x l1 l2 : count x (l1 ++ l2) = (count x l1 + count x l2)%nat.
Proof. unfold count. by rewrite List.filter_app, length_app. Qed.

Lemma count_absent x l : x ∉ l → count x l = 0%nat.
Proof.
  induction l as [|y l IH]; [done|]. intros [Hy Hl]%not_elem_of_cons.
  rewrite count_cons, IH by done. by rewrite bool_decide_eq_false_2.
Qed.

Lemma count_remove_first x l :
  count x (Py.remove_first x l) = pred (count x l).
Proof.
  induction l as [|y l IH]; [done|]. simpl.
  destruct (decide (x = y)) as [<-|Hne].
  - by rewrite count_cons, bool_decide_eq_true_2.
  - rewrite !count_cons, IH. by rewrite bool_decide_eq_false_2.
Qed.

Lemma count_remove_first_other x y l :
  y ≠ x → count y (Py.remove_first x l) = count y l.
Proof.
  intros Hne. induction l as [|z l IH]; [done|]. simpl.
  destruct (decide (x = z)) as [<-|Hz].
  - rewrite count_cons. by rewrite bool_decide_eq_false_2.
  - by rewrite !count_cons, IH.
Qed.

(** The corrections, without the membership test. *)
Lemma corrected_cflags_eq sys_maxint version l :
  corrected_cflags sys_maxint version l
  = let l' := Py.remove_first "-Wstrict-prototypes" l in
    if Py.contains "darwin" version
    then match sys_maxint with
         | None => GuessRaise (AttributeError "maxint")
         | Some m =>
             if decide (m = 2147483647) then Guessed (l' ++ ["-arch"; "i386"])
             else Guessed l'
         end
    else Guessed l'.
Proof.
  unfold corrected_cflags. case_decide as Hin; [done|].
  by rewrite remove_first_absent.
Qed.

Lemma guess_toolchain_eq h make_vars sys_maxint kw code version err :
  _guess_toolchain_kwargs_from_python_config make_vars = Guessed kw →
  call_capture_output h [kw_cc kw; "--version"] = (code, version, err) →
  guess_toolchain h make_vars sys_maxint
  = if decide (code ≠ 0)
    then GuessRaise (ToolchainGuessError
                       ("compiler version query failed: " +:+ err))
    else if known_compiler version
    then cflags ← corrected_cflags sys_maxint version (kw_cflags kw);
         mret (construct GCC (with_cflags kw cflags))
    else GuessRaise (ToolchainGuessError "unknown compiler").
Proof.
  intros Hkw Hrun. unfold guess_toolchain, known_compiler.
  rewrite Hkw. cbn [mbind guess_bind]. rewrite Hrun.
  case_decide; [done|].
  destruct (Py.contains "Free Software Foundation" version); [done|].
  by destruct (Py.contains "Apple LLVM" version && Py.contains "clang" version).
Qed.
End guessing.


(** X16: the compile flags [guess_toolchain] corrects.  The flags of the
    guessed toolchain are the guessed flags without the first
    "-Wstrict-prototypes", followed by "-arch" and "i386" on a 32-bit
    interpreter whose compiler mentions "darwin", and by nothing
    otherwise.  Only one occurrence goes: the flag occurs once less than
    before, and every other flag as often as before. *)
Theorem guess_toolchain_strict_prototypes (h : Host)
    (make_vars : gmap string string) (sys_maxint : option Z)
    (kw : Configuration.kwargs) (t : Toolchain) :
  Configuration._guess_toolchain_kwargs_from_python_config make_vars
    = Configuration.Guessed kw →
  Configuration.guess_toolchain h make_vars sys_maxint
    = Configuration.Guessed t →
  ∃ arch,
    cflags t
    = Py.remove_first "-Wstrict-prototypes" (Configuration.kw_cflags kw)
      ++ arch
    ∧ (arch = [] ∨ arch = ["-arch"; "i386"] ∧ sys_maxint = Some 2147483647)
    ∧ count "-Wstrict-prototypes" (cflags t)
      = pred (count "-Wstrict-prototypes" (Configuration.kw_cflags kw))
    ∧ ∀ f, f ≠ "-Wstrict-prototypes" →
        count f (cflags t) = (count f (Configuration.kw_cflags kw)
                              + count f arch)%nat.
Proof.
  intros Hkw.
  destruct (call_capture_output h [Configuration.kw_cc kw; "--version"])
    as [[code version] err] eqn:Hrun.
  rewrite (guess_toolchain_eq _ _ _ _ _ _ _ Hkw Hrun), corrected_cflags_eq.
  cbn zeta. case_decide; [done|].
  destruct (known_compiler version); [|done].
  assert (∀ arch,
    arch = [] ∨ arch = ["-arch"; "i386"] ∧ sys_maxint = Some 2147483647 →
    let l := Py.remove_first "-Wstrict-prototypes"
               (Configuration.kw_cflags kw) ++ arch in
    count "-Wstrict-prototypes" l
      = pred (count "-Wstrict-prototypes" (Configuration.kw_cflags kw))
    ∧ ∀ f, f ≠ "-Wstrict-prototypes" →
        count f l = (count f (Configuration.kw_cflags kw) + count f arch)%nat)
    as Hcount.
  { intros arch Harch. cbn zeta. split.
    - rewrite count_app, count_remove_first.
      destruct Harch as [->|[-> _]]; by rewrite Nat.add_0_r.
    - intros f Hf. by rewrite count_app, count_remove_first_other. }
  destruct (Py.contains "darwin" version).
  - destruct sys_maxint as [m|]; [|done]. case_decide as Hm.
    + intros [= <-]. exists ["-arch"; "i386"]. subst m.
      split; [done|]. split; [by right|]. apply Hcount. by right.
    + intros [= <-]. exists []. rewrite app_nil_r.
      split; [done|]. split; [by left|].
      specialize (Hcount [] (or_introl eq_refl)).
      by rewrite app_nil_r in Hcount.
  - intros [= <-]. exists []. rewrite app_nil_r.
    split; [done|]. split; [by left|].
    specialize (Hcount [] (or_introl eq_refl)).
    by rewrite app_nil_r in Hcount.
Qed.

(** X17: the toolchain guessed for the CUDA compiler.  Whenever the
    keyword arguments can be guessed, [guess_nvcc_toolchain] returns a
    toolchain of the CUDA class for the command "nvcc", without
    features.  Its compile flags are always two entries, "-Xcompiler"
    and the guessed flags joined by commas, from which the flags can be
    read back by splitting at commas when there is one at least and none
    holds a comma; "-Wstrict-prototypes" is not removed.  The link flags
    are empty, and "__BLOCKS__" is the last undefine.  When the keyword
    arguments cannot be guessed, the error is handed on. *)
Theorem guess_nvcc_toolchain_flags (make_vars : gmap string string) :
  (∀ kw, Configuration._guess_toolchain_kwargs_from_python_config make_vars
         = Configuration.Guessed kw →
     ∃ t host_flags,
       Configuration.guess_nvcc_toolchain make_vars = Configuration.Guessed t
       ∧ cls t = NVCC ∧ cc t = "nvcc" ∧ features t = ∅
       ∧ cflags t = ["-Xcompiler"; host_flags]
       ∧ host_flags = Py.join "," (Configuration.kw_cflags kw)
       ∧ (Configuration.kw_cflags kw ≠ [] →
          Forall (λ f, no_char "," f = true) (Configuration.kw_cflags kw) →
          Py.split_on "," host_flags = Configuration.kw_cflags kw)
       ∧ ldflags t = []
       ∧ undefines t = Configuration.kw_undefines kw ++ ["__BLOCKS__"]
       ∧ defines t = Configuration.kw_defines kw
       ∧ libraries t = Configuration.kw_libraries kw
       ∧ include_dirs t = Configuration.kw_include_dirs kw
       ∧ library_dirs t = Configuration.kw_library_dirs kw
       ∧ so_ext t = Configuration.kw_so_ext kw
       ∧ o_ext t = Configuration.kw_o_ext kw)
  ∧ (∀ e, Configuration._guess_toolchain_kwargs_from_python_config make_vars
          = Configuration.GuessRaise e →
       Configuration.guess_nvcc_toolchain make_vars
       = Configuration.GuessRaise e).
Proof.
  unfold Configuration.guess_nvcc_toolchain. split.
  - intros kw ->. eexists _, _. split_and!; try done.
    intros Hne Hall. by apply (split_on_join ",").
  - by intros e ->.
Qed.

(** ** Libraries and the ABI identifier *)

Section add_library_abi.
Implicit Types (dirs given added : list string) (self : Toolchain).

Lemma append_missing_grows given : ∀ dirs,
  ∃ added,
    Toolchain.append_missing dirs given = dirs ++ added
    ∧ (added = [] ↔ ∀ d, d ∈ given → d ∈ dirs).
Proof.
  unfold Toolchain.append_missing.
  induction given as [|d given IH]; intros dirs; simpl.
  - exists []. rewrite app_nil_r. split; [done|]. split; [|done].
    intros _ d. by rewrite elem_of_nil.
  - case_decide as Hd.
    + destruct (IH dirs) as (added & -> & Hadded). exists added.
      split; [done|]. rewrite Hadded. split.
      * intros H x [->|?]%elem_of_cons; [done|by apply H].
      * intros H x Hx. apply H, elem_of_cons. by right.
    + destruct (IH (dirs ++ [d])) as (added & -> & _).
      exists (d :: added). rewrite <-(assoc_L (++)). split; [done|].
      split; [done|]. intros H. destruct Hd. apply H, elem_of_cons. by left.
Qed.

Lemma baseline_length self :
  length (baseline self)
  = (1 + length (cflags self) + length (ldflags self)
     + length (defines self) + length (undefines self)
     + length (include_dirs self) + length (library_dirs self)
     + length (libraries self))%nat.
Proof.
  unfold baseline, flag. rewrite !length_app, !length_fmap. simpl. lia.
Qed.

Lemma abi_id_cmdline_inj (a b a' b' : Toolchain.abi_item) (x y : list string) :
  @Return (list Toolchain.abi_item) [a; b; Toolchain.AbiList x]
  = Return [a'; b'; Toolchain.AbiList y] → x = y.
Proof. by intros [=]. Qed.
End add_library_abi.

(** X18: when adding a library changes the ABI identifier.  Adding a
    feature that is not yet recorded leaves the identifier as it is
    exactly when it adds nothing to the command line: no library is
    given, and every directory given is already listed.  (The features
    themselves are not part of the identifier.) *)
Theorem add_library_changes_abi_id (h : Host) (self : Toolchain)
    (feature : string) (idirs ldirs libs : list string)
    (v : list Toolchain.abi_item) :
  feature ∉ features self →
  abi_id h self = Return v →
  abi_id h (Toolchain.add_library self feature idirs ldirs libs) = Return v
  ↔ libs = []
    ∧ (∀ d, d ∈ idirs → d ∈ include_dirs self)
    ∧ (∀ d, d ∈ ldirs → d ∈ library_dirs self).
Proof.
  intros Hf. rewrite !abi_id_eq.
  unfold Toolchain.add_library. rewrite decide_False by done.
  destruct (append_missing_grows idirs (include_dirs self))
    as (new_i & Ei & Hi).
  destruct (append_missing_grows ldirs (library_dirs self))
    as (new_l & El & Hl).
  unfold GCCLikeToolchain.get_version. cbn [cc].
  destruct (call_capture_output h [cc self; "--version"])
    as [[code out] err].
  case_decide; [done|]. intros [= <-]. rewrite <-Hi, <-Hl. split.
  - intros Hb%abi_id_cmdline_inj. apply (f_equal length) in Hb.
    rewrite !baseline_length in Hb. cbn in Hb. rewrite Ei, El in Hb.
    rewrite !length_app in Hb.
    split_and!; apply length_zero_iff_nil; lia.
  - intros (-> & -> & ->). do 4 f_equal. unfold baseline. cbn.
    by rewrite Ei, El, !app_nil_r.
Qed.

(** ** The further statements at concrete inputs *)

(** X1 on the banner "gcc (GCC) 4.8.5 20150623". *)
Lemma gcc_get_version_tuple_parses_witness :
  GCCToolchain.get_version_tuple version_host gcc_sample = Return [4; 8; 5].
Proof.
  apply (gcc_get_version_tuple_parses version_host gcc_sample
           "gcc" "(GCC)" ["20150623"] [4; 8; 5] [] "" "").
  - reflexivity.
  - discriminate.
  - repeat constructor.
  - constructor.
  - by left.
  - by left.
Defined.

(** X2 on a CUDA banner: the release "10.2," ends in a comma, so the
    tuple stops after the major number. *)
Lemma nvcc_get_version_tuple_parses_witness :
  NVCCToolchain.get_version_tuple nvcc_version_host nvcc_sample = Return [10].
Proof.
  refine (proj2 (nvcc_get_version_tuple_parses nvcc_version_host nvcc_sample
           "nvcc: NVIDIA (R) Cuda compiler driver"
           "Copyright (c) 2005-2019 NVIDIA Corporation"
           "Built on Wed_Oct_23_19:24:38_PDT_2019"
           "Cuda" "compilation" "tools," "release" [] [10] ["2,"]
           ["V10"; "2"; "89"] Py.newline ""
           _ _ _ _ _ _ _ _ _ _) _ _).
  - reflexivity.
  - reflexivity.
  - reflexivity.
  - reflexivity.
  - discriminate.
  - discriminate.
  - repeat constructor.
  - repeat constructor.
  - repeat constructor.
  - right. by eexists.
  - discriminate.
  - right. exists "2,", []. by split_and!.
Defined.

(** X3 on a banner whose fifth word is "1.9.1dev". *)
Lemma ispc_get_version_tuple_parses_witness :
  ISPCToolchain.get_version_tuple ispc_version_host ispc_sample
  = Return [1; 9].
Proof.
  apply (ispc_get_version_tuple_parses ispc_version_host ispc_sample
           "Intel(r)" "SPMD" "Program" "Compiler" [] [1; 9] ["1dev"]
           (Py.newline +:+ "(build commit 87d0c9a7ed)" +:+ Py.newline) "").
  - reflexivity.
  - discriminate.
  - repeat constructor.
  - repeat constructor.
  - right. exists "1dev", []. by split_and!.
  - right. by eexists _, _.
Defined.


(** X5 at level 3 on the sample configuration, whose flags hold "-O2". *)
Lemma with_optimization_level_one_policy_witness :
  List.filter level_flag (cflags gcc_sample_level3) = ["-O3"]
  ∧ "-DNDEBUG" ∈ cflags gcc_sample_level3.
Proof.
  destruct (with_optimization_level_one_policy version_host gcc_sample
              gcc_sample_level3 (Level 3) eq_refl) as [Hone Hnd].
  split; [exact Hone|]. apply Hnd. discriminate.
Defined.

(** X6 at level 3 with a compiler of version 4.8.5. *)
Lemma with_optimization_level_arch_flags_witness :
  List.filter arch_flag (cflags gcc_sample_level3)
  = ["-march=native"; "-mtune=native"]
  ∧ GCCToolchain.with_optimization_level failing_host gcc_sample (Level 1)
    = GCCToolchain.with_optimization_level version_host gcc_sample (Level 1).
Proof.
  destruct (with_optimization_level_arch_flags version_host gcc_sample
              (Level 3)) as [Hgcc _].
  destruct (with_optimization_level_arch_flags version_host gcc_sample
              (Level 1)) as (_ & Hlow & _).
  split.
  - exact (Hgcc gcc_sample_level3 eq_refl).
  - apply Hlow. right. exists 1. split; [reflexivity|lia].
Defined.

(** X8 on a successful link step of the ISPC class. *)
Lemma build_step_returns_iff_exit_zero_witness :
  link_extension version_host ispc_sample "mod.so" ["mod.o"] true console0
  = ({| sys_stdout :=
          ["ld -fPIC -shared -DISPC_USE_OMP -UB -I/usr/include mod.o -L/usr/lib -lm -o mod.so"];
        sys_stderr := [] |}, Return ()).
Proof.
  destruct (build_step_returns_iff_exit_zero version_host ispc_sample "mod.so"
              ["mod.o"] true console0 _ false link_extension eq_refl)
    as (Hret & Hout & Herr).
  { right. right. by split. }
  pose proof (proj2 Hret eq_refl) as Hr. specialize (Herr Hr).
  destruct (link_extension version_host ispc_sample "mod.so" ["mod.o"] true
              console0) as [[o e] r].
  simpl in Hr, Hout, Herr. by rewrite Hr, Hout, Herr.
Defined.


(** X10 on two C++ sources built as an object. *)
Lemma ispc_cmdline_same_extension_witness :
  ISPCToolchain._cmdline ispc_sample ["a.cpp"; "b.cpp"] true
  = Return ["g++"; "-fPIC"; "-c"; "-DISPC_USE_OMP"; "-UB"; "-I/usr/include";
            "a.cpp"; "b.cpp"].
Proof.
  apply (ispc_cmdline_same_extension ispc_sample ["a.cpp"; "b.cpp"] true "cpp").
  - reflexivity.
  - discriminate.
  - repeat constructor.
Defined.

(** X11 on ISPC sources: the compiler for an object, the linker for an
    extension. *)
Lemma ispc_get_cc_choice_witness :
  ISPCToolchain.get_cc ispc_sample ["a.ispc"; "b.ispc"] true = "ispc"
  ∧ ISPCToolchain.get_cc ispc_sample ["a.ispc"; "b.ispc"] false = "ld".
Proof.
  apply (proj1 (proj2 (ispc_get_cc_choice ispc_sample ["a.ispc"; "b.ispc"]
                         true))).
  - discriminate.
  - repeat constructor.
Defined.


(** X13 on the sample makefile. *)
Lemma guess_kwargs_keeps_every_word_witness :
  ["g++"; "-DNDEBUG"; "-UFOO"; "-pthread"; "-Wall"; "-Wstrict-prototypes";
   "-O2"; "-fPIC"; "-Wstrict-prototypes"; "-framework"; "-lpthread"; "-ldl"]
  ≡ₚ ["g++"; "-pthread"; "-Wall"; "-Wstrict-prototypes"; "-DNDEBUG"; "-O2";
      "-UFOO"; "-fPIC"; "-Wstrict-prototypes"; "-lpthread"; "-ldl";
      "-framework"].
Proof.
  assert (Configuration._guess_toolchain_kwargs_from_python_config
            sample_make_vars = Configuration.Guessed sample_kwargs) as E
    by (vm_compute; reflexivity).
  exact (proj1 (guess_kwargs_keeps_every_word sample_make_vars sample_kwargs
                  E)).
Defined.

(** X14 on the sample makefile, and on the same without [LIBS]. *)
Lemma guess_kwargs_succeeds_iff_witness :
  (∃ kw, Configuration._guess_toolchain_kwargs_from_python_config
           sample_make_vars = Configuration.Guessed kw)
  ∧ ¬ ∃ kw, Configuration._guess_toolchain_kwargs_from_python_config
              make_vars_without_libs = Configuration.Guessed kw.
Proof.
  split.
  - apply (proj2 (proj1 (guess_kwargs_succeeds_iff sample_make_vars))).
    split_and!.
    + repeat constructor; eexists; vm_compute; reflexivity.
    + eexists _, _. split; vm_compute; reflexivity.
    + vm_compute. discriminate.
    + vm_compute. discriminate.
  - intros Hkw.
    apply (proj1 (proj1 (guess_kwargs_succeeds_iff make_vars_without_libs)))
      in Hkw as [Hreq _].
    rewrite Forall_forall in Hreq.
    destruct (Hreq "LIBS") as [v Hv]; [compute_done|].
    vm_compute in Hv. discriminate.
Defined.


(** X16 on the sample makefile, which names "-Wstrict-prototypes"
    twice. *)
Lemma guess_toolchain_strict_prototypes_witness :
  ∃ t, Configuration.guess_toolchain gnu_host sample_make_vars None
       = Configuration.Guessed t
       ∧ count "-Wstrict-prototypes" (cflags t) = 1%nat.
Proof.
  assert (Configuration._guess_toolchain_kwargs_from_python_config
            sample_make_vars = Configuration.Guessed sample_kwargs) as E
    by (vm_compute; reflexivity).
  eexists. split; [vm_compute; reflexivity|].
  destruct (guess_toolchain_strict_prototypes gnu_host sample_make_vars None
              sample_kwargs _ E eq_refl) as (arch & _ & _ & Hcount & _).
  exact Hcount.
Defined.

(** X17 on the sample makefile. *)
Lemma guess_nvcc_toolchain_flags_witness :
  ∃ t, Configuration.guess_nvcc_toolchain sample_make_vars
       = Configuration.Guessed t
       ∧ cflags t
         = ["-Xcompiler";
            "-pthread,-Wall,-Wstrict-prototypes,-O2,-fPIC,-Wstrict-prototypes,-framework"].
Proof.
  assert (Configuration._guess_toolchain_kwargs_from_python_config
            sample_make_vars = Configuration.Guessed sample_kwargs) as E
    by (vm_compute; reflexivity).
  destruct (proj1 (guess_nvcc_toolchain_flags sample_make_vars) sample_kwargs E)
    as (t & host_flags & Ht & _ & _ & _ & Hflags & -> & _).
  exists t. by split.
Defined.

(** X18 on a library that brings one include directory. *)
Lemma add_library_changes_abi_id_witness :
  ∃ v, abi_id version_host gcc_sample = Return v
       ∧ abi_id version_host
           (Toolchain.add_library gcc_sample "boost" ["/opt/boost/include"]
              [] [])
         ≠ Return v.
Proof.
  eexists. split; [reflexivity|]. intros Heq.
  assert ("boost" ∉ features gcc_sample) as Hf by compute_done.
  apply (add_library_changes_abi_id version_host gcc_sample "boost"
           ["/opt/boost/include"] [] [] _ Hf eq_refl) in Heq as (_ & Hi & _).
  assert ("/opt/boost/include" ∈ include_dirs gcc_sample) as Hin
    by apply Hi, list_elem_of_singleton, eq_refl.
  revert Hin. compute_done.
Defined.
